(** * FwmarkServer: the fwmark command protocol of netd

    A shallow embedding of [server/FwmarkServer.cpp]: the framing of one
    request, the gating on the received descriptor, the per-command
    transition of the socket's fwmark and the single write-back.

    The C++ function [FwmarkServer::processClient] returns early from many
    places and talks to the kernel and to collaborators on the way.  It is
    embedded in a small monad [Proc] that threads the out-parameter
    [*socketFd] and the trace of observable calls, and that can return a
    status early. *)

From Stdlib Require Import ZArith List Bool String Lia.
Import ListNotations.
Local Open Scope Z_scope.

(** ** Platform constants (Linux [errno.h], [socket.h], [in.h]) *)

Definition EPERM : Z := 1.
Definition EBADF : Z := 9.
Definition EPROTO : Z := 71.
Definition EBADMSG : Z := 74.
Definition EAFNOSUPPORT : Z := 97.
Definition ESHUTDOWN : Z := 108.

Definition AF_INET6 : Z := 10.
Definition IPPROTO_UDP : Z := 17.

(** [static_cast<int>] of a 32-bit unsigned value. *)
Definition to_int (v : Z) : Z :=
  let w := v mod 2 ^ 32 in
  if w <? 2 ^ 31 then w else w - 2 ^ 32.

(** [IN6_IS_ADDR_LINKLOCAL]: the address is in fe80::/10.  The address is
    the array [s6_addr] of bytes. *)
Definition IN6_IS_ADDR_LINKLOCAL (s6_addr : list Z) : bool :=
  (nth 0 s6_addr 0 =? 254) && (Z.land (nth 1 s6_addr 0) 192 =? 128).

(** Modelled from the spec: [resolv.h] is not among the sources.  The unset
    network id is the sentinel of the all-zero marker the kernel gives a new
    socket (the spec's "all-zero / unset"). *)
Definition NETID_UNSET : Z := 0.

(** ** The fwmark *)

Module Fwmark.

(** Modelled from the spec: [Fwmark.h] is not among the sources.  The
    marker is one packed integer ([intValue]) that is read and written whole;
    its fields are [netId] (a 16-bit-range identifier), [permission] (a
    Permission bitmask), [explicitlySelected] and [protectedFromVpn].
    [otherBits] stands for the bits of [intValue] outside these four fields,
    which [processClient] never assigns. *)
Record t : Type := mk
  { netId : Z;
    explicitlySelected : bool;
    protectedFromVpn : bool;
    permission : Z;
    otherBits : Z }.

(** The value an unsigned takes when it is assigned to the 16-bit field
    [netId]: its low 16 bits. *)
Definition netIdField (v : Z) : Z := v mod 2 ^ 16.

(** A network id that the field holds as it is. *)
Definition validNetId (v : Z) : Prop := 0 <= v < 2 ^ 16.

Definition set_netId (m : t) (v : Z) : t :=
  mk (netIdField v) (explicitlySelected m) (protectedFromVpn m)
     (permission m) (otherBits m).

Definition set_explicitlySelected (m : t) (b : bool) : t :=
  mk (netId m) b (protectedFromVpn m) (permission m) (otherBits m).

Definition set_protectedFromVpn (m : t) (b : bool) : t :=
  mk (netId m) (explicitlySelected m) b (permission m) (otherBits m).

Definition set_permission (m : t) (p : Z) : t :=
  mk (netId m) (explicitlySelected m) (protectedFromVpn m) p (otherBits m).

End Fwmark.

(** ** The request *)

Module FwmarkCommand.

(** The command ids of [FwmarkCommand.h].  [UNKNOWN raw] is a value on the
    wire that is none of the enumerators; the [switch] sends it to
    [default]. *)
Inductive CmdId : Type :=
  | ON_ACCEPT
  | ON_CONNECT
  | SELECT_NETWORK
  | PROTECT_FROM_VPN
  | SELECT_FOR_USER
  | QUERY_USER_ACCESS
  | ON_CONNECT_COMPLETE
  | ON_SENDMMSG
  | ON_SENDMSG
  | ON_SENDTO
  | TAG_SOCKET
  | UNTAG_SOCKET
  | UNKNOWN (raw : Z).

Definition CmdId_eq_dec (a b : CmdId) : {a = b} + {a <> b}.
Proof. decide equality; apply Z.eq_dec. Defined.

Definition eqb (a b : CmdId) : bool :=
  if CmdId_eq_dec a b then true else false.

Record t : Type := mk
  { cmdId : CmdId;
    netId : Z;            (* unsigned *)
    uid : Z;              (* uid_t *)
    trafficCtrlInfo : Z   (* uint32_t *) }.

End FwmarkCommand.

Module FwmarkConnectInfo.

(** The [sin6] view of the address union: the two members that
    [processClient] reads. *)
Record sockaddr_in6 : Type := mk_sin6
  { sin6_scope_id : Z;
    sin6_addr : list Z }.

Record t : Type := mk
  { error : Z;
    latencyMs : Z;
    addr : sockaddr_in6 }.

End FwmarkConnectInfo.

(** ** Collaborators *)

(** The subset of [NetworkController] that [processClient] calls. *)
Record NetworkController : Type := mkNetworkController
  { getPermissionForUser : Z -> Z;
    checkUserNetworkAccess : Z -> Z -> Z;
    getNetworkForInterface : Z -> Z;
    getNetworkForConnect : Z -> Z;
    getNetworkForUser : Z -> Z;
    getDefaultNetwork : Z;
    isVirtualNetwork : Z -> bool;
    canProtect : Z -> bool }.

(** [getNetdEventListener] returns a listener or [nullptr]. *)
Record EventReporter : Type := mkEventReporter
  { hasNetdEventListener : bool }.

(** The members of the class. *)
Record FwmarkServer : Type := mkFwmarkServer
  { mNetworkController : NetworkController;
    mEventReporter : EventReporter;
    mRedirectSocketCalls : bool }.

Record SocketClient : Type := mkSocketClient
  { getUid : Z;
    getSocket : Z }.

(** A system call yields a value, or fails (-1) and sets [errno]. *)
Inductive SysResult (A : Type) : Type :=
  | Ok (a : A)
  | Err (errno : Z).
Arguments Ok {A} a.
Arguments Err {A} errno.

(** What the kernel, libc and libnetd_updatable answer during one request.
    The marker of a descriptor is read at most once and before it is
    written, so the answers do not depend on the history. *)
Record Platform : Type := mkPlatform
  { getsockopt_SO_DOMAIN : Z -> SysResult Z;
    getsockopt_SO_MARK : Z -> SysResult Fwmark.t;
    getsockopt_SO_PROTOCOL : Z -> SysResult Z;
    setsockopt_SO_MARK : Z -> Fwmark.t -> SysResult unit;
    getnameinfo : FwmarkConnectInfo.sockaddr_in6 -> option (string * string);
    strtoul : string -> Z;
    libnetd_updatable_tagSocket : Z -> Z -> Z -> Z -> Z;
    libnetd_updatable_untagSocket : Z -> Z }.

(** What [ReceiveFileDescriptorVector] delivered: its return value, [errno]
    when that is negative, the two structs copied out of the buffer, and the
    descriptors.  It is called with [max_fds = 1], so that it delivers no
    descriptor or one valid descriptor. *)
Record Received : Type := mkReceived
  { messageLength : Z;
    recv_errno : Z;
    command : FwmarkCommand.t;
    connectInfo : FwmarkConnectInfo.t;
    received_fds : list Z }.

(** ** Observable calls *)

Inductive SockOpt : Type := SO_DOMAIN | SO_MARK | SO_PROTOCOL.

Inductive Event : Type :=
  | Getsockopt (fd : Z) (opt : SockOpt)
  | SetsockoptMark (fd : Z) (fwmark : Fwmark.t)
  | CheckUserNetworkAccess (uid netId : Z)
  | OnConnectEvent (netId error latencyMs : Z) (addr : string) (port uid : Z)
  | TagSocket (fd trafficCtrlInfo uid callerUid : Z)
  | UntagSocket (fd : Z)
  | Close (fd : Z)
  | SendData (socket status : Z).

Definition isSockOptEvent (e : Event) : bool :=
  match e with
  | Getsockopt _ _ | SetsockoptMark _ _ => true
  | _ => false
  end.

Definition isAccessCheck (e : Event) : bool :=
  match e with
  | CheckUserNetworkAccess _ _ => true
  | _ => false
  end.

Definition isTagEvent (e : Event) : bool :=
  match e with
  | TagSocket _ _ _ _ | UntagSocket _ => true
  | _ => false
  end.

(** The markers written during a run, in order. *)
Fixpoint markWrites (tr : list Event) : list Fwmark.t :=
  match tr with
  | [] => []
  | SetsockoptMark _ fwmark :: tr' => fwmark :: markWrites tr'
  | _ :: tr' => markWrites tr'
  end.

(** ** The monad of [processClient] *)

Record State : Type := mkState
  { socketFd : Z;
    trace : list Event }.

Inductive Outcome (A : Type) : Type :=
  | Continue (a : A)
  | Return (status : Z).
Arguments Continue {A} a.
Arguments Return {A} status.

Definition Proc (A : Type) : Type := State -> Outcome A * State.

Definition ret {A} (a : A) : Proc A := fun st => (Continue a, st).

Definition bind {A B} (m : Proc A) (k : A -> Proc B) : Proc B :=
  fun st =>
    match m st with
    | (Continue a, st') => k a st'
    | (Return s, st') => (Return s, st')
    end.

(** [return status;] *)
Definition return_ {A} (status : Z) : Proc A := fun st => (Return status, st).

Definition when (c : bool) (m : Proc unit) : Proc unit :=
  if c then m else ret tt.

Definition emit (e : Event) : Proc unit :=
  fun st => (Continue tt, mkState (socketFd st) (trace st ++ [e])).

(** [*socketFd = fd;] *)
Definition set_socketFd (fd : Z) : Proc unit :=
  fun st => (Continue tt, mkState fd (trace st)).

Definition get_socketFd : Proc Z :=
  fun st => (Continue (socketFd st), st).

(** What the vector [received_fds] owns until [release()] is called on it.
    [ReceiveFileDescriptorVector] is called with [max_fds = 1]: it delivers no
    descriptor, or one valid descriptor. *)
Definition ownedDescriptors (rx : Received) : list Z :=
  match received_fds rx with
  | [fd] => if 0 <=? fd then [fd] else []
  | _ => []
  end.

(** [return status;] while [received_fds] still owns what it received: the
    destructor of the vector closes it on the way out. *)
Definition return_owning {A} (rx : Received) (status : Z) : Proc A :=
  fun st =>
    (Return status,
     mkState (socketFd st) (trace st ++ map Close (ownedDescriptors rx))).

Declare Scope proc_scope.
Delimit Scope proc_scope with proc.
Notation "x <- m ;; k" := (bind m (fun x => k))
  (at level 61, m at next level, right associativity) : proc_scope.
Notation "m ;; k" := (bind m (fun _ => k))
  (at level 61, right associativity) : proc_scope.
Local Open Scope proc_scope.

Definition initialState : State := mkState (-1) [].

Definition run (m : Proc Z) : Z * State :=
  match m initialState with
  | (Continue s, st) => (s, st)
  | (Return s, st) => (s, st)
  end.

(** The network ids that the controller hands out are 16-bit identifiers. *)
Definition netIdsFit (nc : NetworkController) : Prop :=
  (forall ifindex, Fwmark.validNetId (getNetworkForInterface nc ifindex)) /\
  (forall uid, Fwmark.validNetId (getNetworkForConnect nc uid)) /\
  (forall uid, Fwmark.validNetId (getNetworkForUser nc uid)) /\
  Fwmark.validNetId (getDefaultNetwork nc).

(** The descriptor a call works on, for the calls that take one. *)
Definition eventDescriptor (e : Event) : option Z :=
  match e with
  | Getsockopt fd _ | SetsockoptMark fd _ | TagSocket fd _ _ _
  | UntagSocket fd | Close fd => Some fd
  | CheckUserNetworkAccess _ _ | OnConnectEvent _ _ _ _ _ _
  | SendData _ _ => None
  end.

(** ** The system server check *)

(** The calls of [isSystemServer] into libselinux. *)
Inductive ConCall : Type :=
  | Getpeercon (socket : Z)
  | Freecon (context : string).

Definition SYSTEM_SERVER_CONTEXT : string := "u:r:system_server:s0".

(** [isSystemServer], with the calls it makes.  [AID_SYSTEM] is a
    declaration of a header that is not among the sources; [getpeercon]
    answers the security context of the peer of a socket, or fails. *)
Definition isSystemServer (AID_SYSTEM : Z) (getpeercon : Z -> option string)
    (client : SocketClient) : bool * list ConCall :=
  if negb (getUid client =? AID_SYSTEM) then (false, [])
  else
    match getpeercon (getSocket client) with
    | None => (false, [Getpeercon (getSocket client)])
    | Some context =>
        let ret := String.eqb context SYSTEM_SERVER_CONTEXT in
        (ret, [Getpeercon (getSocket client); Freecon context])
    end.

(** ** Concrete requests, used by the examples

    The header declarations take the values of the Android tree: a command
    of four 32-bit words, a connect info of two words and a 28-byte address,
    the families AF_INET (2) and AF_INET6 (10), and the permissions NONE = 0,
    NETWORK = 1, SYSTEM = 3. *)

Module Sample.

Definition sizeof_command : Z := 16.
Definition sizeof_connectInfo : Z := 36.
Definition isSupportedFamily (family : Z) : bool :=
  (family =? 2) || (family =? 10).
Definition PERMISSION_NONE : Z := 0.
Definition PERMISSION_SYSTEM : Z := 3.

Definition EACCES : Z := 13.

(** A controller with the physical networks 100 (the default) and 101 (on
    interface 3), and the VPN 200.  Every uid has permission [perm], can
    protect iff [protect], connects over [connectNet], and may use every
    network but 101. *)
Definition controller (perm : Z) (protect : bool) (connectNet : Z)
  : NetworkController :=
  mkNetworkController
    (fun _ => perm)
    (fun _ netId => if netId =? 101 then - EACCES else 0)
    (fun ifindex => if ifindex =? 3 then 101 else NETID_UNSET)
    (fun _ => connectNet)
    (fun _ => connectNet)
    100
    (fun netId => netId =? 200)
    (fun _ => protect).

Definition server (nc : NetworkController) : FwmarkServer :=
  mkFwmarkServer nc (mkEventReporter false) false.

(** A kernel on which every descriptor is a TCP socket of family [family]
    carrying [fwmark], and every write succeeds. *)
Definition kernel (family : Z) (fwmark : Fwmark.t) : Platform :=
  mkPlatform
    (fun _ => Ok family)
    (fun _ => Ok fwmark)
    (fun _ => Ok 6)
    (fun _ _ => Ok tt)
    (fun _ => None)
    (fun _ => 0)
    (fun _ _ _ _ => 0)
    (fun _ => 0).

Definition client : SocketClient := mkSocketClient 10001 7.

Definition noConnectInfo : FwmarkConnectInfo.t :=
  FwmarkConnectInfo.mk 0 0 (FwmarkConnectInfo.mk_sin6 0 []).

(** A request of [len] bytes that carries the descriptors [fds]. *)
Definition request (cmdId : FwmarkCommand.CmdId) (netId uid len : Z)
    (fds : list Z) : Received :=
  mkReceived len 0 (FwmarkCommand.mk cmdId netId uid 0) noConnectInfo fds.

(** A connect info for the link-local destination fe80::1 on interface 3,
    and a request of 52 bytes that carries a connect info. *)
Definition linkLocalInfo : FwmarkConnectInfo.t :=
  FwmarkConnectInfo.mk 0 0
    (FwmarkConnectInfo.mk_sin6 3 [254; 128; 0; 0; 0; 0; 0; 0;
                                  0; 0; 0; 0; 0; 0; 0; 1]).

Definition connectRequest (cmdId : FwmarkCommand.CmdId)
    (info : FwmarkConnectInfo.t) (fds : list Z) : Received :=
  mkReceived 52 0 (FwmarkCommand.mk cmdId 0 0 0) info fds.

(** The marker of a new socket. *)
Definition fresh : Fwmark.t := Fwmark.mk NETID_UNSET false false 0 0.

(** A server with a listener for connect events registered. *)
Definition listeningServer (nc : NetworkController) : FwmarkServer :=
  mkFwmarkServer nc (mkEventReporter true) false.

(** A receive that failed with ECONNRESET (104). *)
Definition failedReceive : Received :=
  mkReceived (-1) 104 (FwmarkCommand.mk FwmarkCommand.ON_ACCEPT 0 0 0)
    noConnectInfo [].

(** A kernel like [kernel] on which the marker cannot be written: the write
    fails with EPERM (1). *)
Definition readOnlyKernel (family : Z) (fwmark : Fwmark.t) : Platform :=
  mkPlatform
    (fun _ => Ok family)
    (fun _ => Ok fwmark)
    (fun _ => Ok 6)
    (fun _ _ => Err 1)
    (fun _ => None)
    (fun _ => 0)
    (fun _ _ _ _ => 0)
    (fun _ => 0).

(** A peer whose security context is that of the system server. *)
Definition peerIsSystemServer (socket : Z) : option string :=
  Some "u:r:system_server:s0"%string.

End Sample.

(** ** The server *)

Section Server.

(** Declarations of headers that are not among the sources: the sizes of the
    two wire structs and [isSupportedFamily] ([FwmarkCommand.h]), and the two
    Permission constants the source names ([Permission.h]). *)
Variable sizeof_command : Z.
Variable sizeof_connectInfo : Z.
Variable isSupportedFamily : Z -> bool.
Variable PERMISSION_NONE : Z.
Variable PERMISSION_SYSTEM : Z.

Variable os : Platform.
Variable this : FwmarkServer.

Import FwmarkCommand.

Definition hasDestinationAddress (cmdId : CmdId) (redirectSocketCalls : bool)
  : bool :=
  if redirectSocketCalls then
    eqb cmdId ON_SENDTO || eqb cmdId ON_CONNECT ||
    eqb cmdId ON_SENDMSG || eqb cmdId ON_SENDMMSG ||
    eqb cmdId ON_CONNECT_COMPLETE
  else
    eqb cmdId ON_CONNECT || eqb cmdId ON_CONNECT_COMPLETE.

Definition expectedLen (cmdId : CmdId) : Z :=
  if hasDestinationAddress cmdId (mRedirectSocketCalls this)
  then sizeof_command + sizeof_connectInfo
  else sizeof_command.

(** The calls that leave a mark in the trace. *)

Definition getsockopt (fd : Z) (opt : SockOpt) {A} (answer : SysResult A)
  : Proc (SysResult A) :=
  emit (Getsockopt fd opt) ;; ret answer.

Definition setsockopt_mark (fd : Z) (fwmark : Fwmark.t)
  : Proc (SysResult unit) :=
  emit (SetsockoptMark fd fwmark) ;; ret (setsockopt_SO_MARK os fd fwmark).

Definition call_checkUserNetworkAccess (uid netId : Z) : Proc Z :=
  emit (CheckUserNetworkAccess uid netId) ;;
  ret (checkUserNetworkAccess (mNetworkController this) uid netId).

(** The [switch] of [processClient]: from the locals [fwmark] and
    [permission] to their values at the [break], or an early [return]. *)
Definition dispatch (client : SocketClient) (command : FwmarkCommand.t)
    (connectInfo : FwmarkConnectInfo.t) (fd family : Z)
    (fwmark : Fwmark.t) (permission : Z) : Proc (Fwmark.t * Z) :=
  let nc := mNetworkController this in
  match cmdId command with
  | ON_ACCEPT =>
      ret (fwmark, Z.lor permission (Fwmark.permission fwmark))

  | ON_CONNECT =>
      if negb (Fwmark.explicitlySelected fwmark) then
        let sin6 := FwmarkConnectInfo.addr connectInfo in
        if (family =? AF_INET6)
           && negb (FwmarkConnectInfo.sin6_scope_id sin6 =? 0)
           && IN6_IS_ADDR_LINKLOCAL (FwmarkConnectInfo.sin6_addr sin6)
        then
          ret (Fwmark.set_netId fwmark
                 (getNetworkForInterface nc
                    (FwmarkConnectInfo.sin6_scope_id sin6)),
               permission)
        else if negb (Fwmark.protectedFromVpn fwmark) then
          ret (Fwmark.set_netId fwmark
                 (getNetworkForConnect nc (getUid client)),
               permission)
        else if negb (isVirtualNetwork nc (Fwmark.netId fwmark)) then
          ret (Fwmark.set_netId fwmark (getDefaultNetwork nc), permission)
        else
          ret (fwmark, permission)
      else
        ret (fwmark, permission)

  | ON_CONNECT_COMPLETE =>
      r <- getsockopt fd SO_PROTOCOL (getsockopt_SO_PROTOCOL os fd) ;;
      match r with
      | Err _ => ret (fwmark, permission)
      | Ok socketProto =>
          if socketProto =? IPPROTO_UDP then ret (fwmark, permission)
          else
            when (hasNetdEventListener (mEventReporter this))
              (match getnameinfo os (FwmarkConnectInfo.addr connectInfo) with
               | Some (addrstr, portstr) =>
                   emit (OnConnectEvent (Fwmark.netId fwmark)
                           (FwmarkConnectInfo.error connectInfo)
                           (FwmarkConnectInfo.latencyMs connectInfo)
                           addrstr (strtoul os portstr) (getUid client))
               | None =>
                   emit (OnConnectEvent (Fwmark.netId fwmark)
                           (FwmarkConnectInfo.error connectInfo)
                           (FwmarkConnectInfo.latencyMs connectInfo)
                           EmptyString 0 (getUid client))
               end) ;;
            ret (fwmark, permission)
      end

  | ON_SENDMMSG | ON_SENDMSG | ON_SENDTO =>
      return_ 0

  | SELECT_NETWORK =>
      let fwmark := Fwmark.set_netId fwmark (netId command) in
      if netId command =? NETID_UNSET then
        let fwmark := Fwmark.set_explicitlySelected fwmark false in
        let fwmark := Fwmark.set_protectedFromVpn fwmark false in
        ret (fwmark, PERMISSION_NONE)
      else
        r <- call_checkUserNetworkAccess (getUid client) (netId command) ;;
        if negb (r =? 0) then return_ r
        else
          let fwmark := Fwmark.set_explicitlySelected fwmark true in
          let fwmark :=
            Fwmark.set_protectedFromVpn fwmark (canProtect nc (getUid client)) in
          ret (fwmark, permission)

  | PROTECT_FROM_VPN =>
      if negb (canProtect nc (getUid client)) then return_ (- EPERM)
      else
        let fwmark :=
          if negb (Fwmark.explicitlySelected fwmark)
             && isVirtualNetwork nc (Fwmark.netId fwmark)
          then Fwmark.set_netId fwmark (getDefaultNetwork nc)
          else fwmark in
        let fwmark := Fwmark.set_protectedFromVpn fwmark true in
        ret (fwmark, Z.lor permission (Fwmark.permission fwmark))

  | SELECT_FOR_USER =>
      if negb (Z.land permission PERMISSION_SYSTEM =? PERMISSION_SYSTEM)
      then return_ (- EPERM)
      else
        let fwmark := Fwmark.set_netId fwmark (getNetworkForUser nc (uid command)) in
        let fwmark := Fwmark.set_protectedFromVpn fwmark true in
        ret (fwmark, permission)

  | TAG_SOCKET =>
      let uid' :=
        if to_int (uid command) =? -1 then getUid client else uid command in
      emit (TagSocket fd (trafficCtrlInfo command) uid' (getUid client)) ;;
      return_ (libnetd_updatable_tagSocket os fd (trafficCtrlInfo command)
                 uid' (getUid client))

  | UNTAG_SOCKET =>
      emit (UntagSocket fd) ;;
      return_ (libnetd_updatable_untagSocket os fd)

  | QUERY_USER_ACCESS | UNKNOWN _ =>
      (* default: unknown command *)
      return_ (- EPROTO)
  end.

Definition processClient_body (client : SocketClient) (rx : Received)
  : Proc Z :=
  when (messageLength rx <? 0) (return_owning rx (- recv_errno rx)) ;;
  when (messageLength rx =? 0) (return_owning rx (- ESHUTDOWN)) ;;

  let command := command rx in
  let connectInfo := connectInfo rx in

  when (negb (messageLength rx =? expectedLen (cmdId command)))
    (return_owning rx (- EBADMSG)) ;;

  let permission :=
    getPermissionForUser (mNetworkController this) (getUid client) in

  when (eqb (cmdId command) QUERY_USER_ACCESS)
    (when (negb (Z.land permission PERMISSION_SYSTEM =? PERMISSION_SYSTEM))
       (return_owning rx (- EPERM)) ;;
     r <- call_checkUserNetworkAccess (uid command) (netId command) ;;
     return_owning rx r) ;;

  when (negb (Nat.eqb (List.length (received_fds rx)) 1))
    (return_owning rx (- EBADF)) ;;
  when (nth 0 (received_fds rx) 0 <? 0) (return_owning rx (- EBADF)) ;;

  (* [release()]: from here on the vector owns nothing, and a plain
     [return] closes nothing. *)
  set_socketFd (nth 0 (received_fds rx) 0) ;;
  fd <- get_socketFd ;;

  r <- getsockopt fd SO_DOMAIN (getsockopt_SO_DOMAIN os fd) ;;
  match r with
  | Err errno => return_ (- errno)
  | Ok family =>
      when (negb (isSupportedFamily family)) (return_ (- EAFNOSUPPORT)) ;;

      r <- getsockopt fd SO_MARK (getsockopt_SO_MARK os fd) ;;
      match r with
      | Err errno => return_ (- errno)
      | Ok fwmark =>
          locals <-
            dispatch client command connectInfo fd family fwmark permission ;;
          let fwmark := fst locals in
          let permission := snd locals in

          let fwmark := Fwmark.set_permission fwmark permission in

          r <- setsockopt_mark fd fwmark ;;
          match r with
          | Err errno => return_ (- errno)
          | Ok _ => return_ 0
          end
      end
  end.

(** [processClient]: the status it returns, with the final value of
    [*socketFd] and the calls it made, the close by the destructor of
    [received_fds] included. *)
Definition processClient (client : SocketClient) (rx : Received)
  : Z * State :=
  run (processClient_body client rx).

(** [onDataAvailable]: the descriptor that [processClient] took is closed,
    the status is sent, and the connection is closed (the result [false]). *)
Definition onDataAvailable (client : SocketClient) (rx : Received)
  : bool * list Event :=
  let '(error, st) := processClient client rx in
  let tr :=
    if 0 <=? socketFd st then trace st ++ [Close (socketFd st)]
    else trace st in
  (false, tr ++ [SendData (getSocket client) error]).

(** A message that passes the length checks. *)
Definition wellFramed (rx : Received) : Prop :=
  0 < messageLength rx /\
  messageLength rx = expectedLen (cmdId (command rx)).

(** The request carries the one valid descriptor [fd], a socket of the
    supported family [family] whose marker reads as [fwmark]. *)
Definition gated (rx : Received) (fd family : Z) (fwmark : Fwmark.t) : Prop :=
  received_fds rx = [fd] /\ 0 <= fd /\
  getsockopt_SO_DOMAIN os fd = Ok family /\
  isSupportedFamily family = true /\
  getsockopt_SO_MARK os fd = Ok fwmark.

(** The commands whose [case] ends in [break], and so reaches the
    write-back. *)
Definition reachesWriteBack (c : CmdId) : Prop :=
  c = ON_ACCEPT \/ c = ON_CONNECT \/ c = ON_CONNECT_COMPLETE \/
  c = SELECT_NETWORK \/ c = PROTECT_FROM_VPN \/ c = SELECT_FOR_USER.

(** The caller's permission. *)
Definition callerPermission (client : SocketClient) : Z :=
  getPermissionForUser (mNetworkController this) (getUid client).

(** The calls a request for command [c] with connect info [ci] may make when
    [*socketFd] ends as [fd], each with the arguments it must have.  A close
    is the destructor's, in a run that took no descriptor. *)
Definition engineCall (client : SocketClient) (c : FwmarkCommand.t)
    (ci : FwmarkConnectInfo.t) (fd : Z) (e : Event) : Prop :=
  match e with
  | Getsockopt f opt =>
      f = fd /\ (opt = SO_PROTOCOL -> cmdId c = ON_CONNECT_COMPLETE)
  | SetsockoptMark f _ =>
      f = fd /\ reachesWriteBack (cmdId c)
  | CheckUserNetworkAccess u n =>
      n = netId c /\
      ((cmdId c = QUERY_USER_ACCESS /\ u = uid c) \/
       (cmdId c = SELECT_NETWORK /\ u = getUid client /\ n <> NETID_UNSET))
  | OnConnectEvent _ err lat _ _ u =>
      cmdId c = ON_CONNECT_COMPLETE /\
      err = FwmarkConnectInfo.error ci /\
      lat = FwmarkConnectInfo.latencyMs ci /\
      u = getUid client
  | TagSocket f info _ caller =>
      cmdId c = TAG_SOCKET /\ f = fd /\
      info = trafficCtrlInfo c /\ caller = getUid client
  | UntagSocket f =>
      cmdId c = UNTAG_SOCKET /\ f = fd
  | Close _ => fd = -1
  | SendData _ _ => False
  end.

(** * Properties *)

(** Case analysis on the conditions of the [switch]. *)
Ltac split_ifs :=
  repeat match goal with
    | |- context [if ?b then _ else _] => destruct b eqn:?; cbn -[Z.land Z.lor]
    | |- context [when ?b _] => destruct b eqn:?; cbn -[Z.land Z.lor]
    | |- context [match getsockopt_SO_PROTOCOL ?o ?f with _ => _ end] =>
        destruct (getsockopt_SO_PROTOCOL o f); cbn -[Z.land Z.lor]
    | |- context [match getnameinfo ?o ?a with _ => _ end] =>
        destruct (getnameinfo o a) as [[? ?] |]; cbn -[Z.land Z.lor]
    end.


Lemma eqb_refl (c : CmdId) : eqb c c = true.
Proof. unfold eqb. destruct (CmdId_eq_dec c c); congruence. Qed.

Lemma eqb_neq (a b : CmdId) : a <> b -> eqb a b = false.
Proof. unfold eqb. destruct (CmdId_eq_dec a b); congruence. Qed.

Lemma eqb_eq (a b : CmdId) : eqb a b = true <-> a = b.
Proof. unfold eqb. destruct (CmdId_eq_dec a b); split; congruence. Qed.

(** Past the gate, a run is the [switch] followed by the write-back. *)
Lemma processClient_gated client rx fd family prior :
  wellFramed rx ->
  cmdId (command rx) <> QUERY_USER_ACCESS ->
  gated rx fd family prior ->
  processClient client rx =
  match dispatch client (command rx) (connectInfo rx) fd family prior
          (callerPermission client)
          (mkState fd [Getsockopt fd SO_DOMAIN; Getsockopt fd SO_MARK]) with
  | (Continue locals, st) =>
      let w := Fwmark.set_permission (fst locals) (snd locals) in
      (match setsockopt_SO_MARK os fd w with
       | Ok _ => 0
       | Err errno => - errno
       end,
       mkState (socketFd st) (trace st ++ [SetsockoptMark fd w]))
  | (Return s, st) => (s, st)
  end.
Proof.
  intros [Hpos Hlen] Hq (Hfds & Hfd & Hdom & Hsup & Hmark).
  unfold processClient, run, processClient_body, callerPermission.
  assert (H1 : (messageLength rx <? 0) = false) by (apply Z.ltb_ge; lia).
  assert (H2 : (messageLength rx =? 0) = false) by (apply Z.eqb_neq; lia).
  assert (H3 : (messageLength rx =? expectedLen (cmdId (command rx))) = true)
    by (apply Z.eqb_eq; exact Hlen).
  assert (H4 : (fd <? 0) = false) by (apply Z.ltb_ge; lia).
  rewrite H1, H2, H3, (eqb_neq _ _ Hq), Hfds.
  cbn -[dispatch]. rewrite H4. cbn -[dispatch].
  rewrite Hdom. cbn -[dispatch]. rewrite Hsup. cbn -[dispatch].
  rewrite Hmark. cbn -[dispatch].
  unfold bind at 1.
  destruct (dispatch _ _ _ _ _ _ _ _) as [[locals | s] st]; cbn; [|reflexivity].
  destruct (setsockopt_SO_MARK _ _ _); reflexivity.
Qed.

(** What the vector owns: the one valid descriptor received, or nothing. *)
Lemma ownedDescriptors_one rx fd :
  received_fds rx = [fd] -> 0 <= fd -> ownedDescriptors rx = [fd].
Proof.
  intros Hfds Hfd. unfold ownedDescriptors. rewrite Hfds.
  apply Z.leb_le in Hfd. rewrite Hfd. reflexivity.
Qed.

Lemma ownedDescriptors_none rx :
  ~ (exists fd, received_fds rx = [fd] /\ 0 <= fd) ->
  ownedDescriptors rx = [].
Proof.
  intros Hno. unfold ownedDescriptors.
  destruct (received_fds rx) as [| fd [| fd' fds]]; try reflexivity.
  destruct (0 <=? fd) eqn:Hfd; [|reflexivity].
  exfalso. apply Hno. exists fd. split; [reflexivity|].
  apply Z.leb_le. exact Hfd.
Qed.

Lemma ownedDescriptors_cases rx :
  ownedDescriptors rx = [] \/
  exists fd, received_fds rx = [fd] /\ 0 <= fd /\ ownedDescriptors rx = [fd].
Proof.
  unfold ownedDescriptors.
  destruct (received_fds rx) as [| fd [| fd' fds]]; auto.
  destruct (0 <=? fd) eqn:Hfd; auto.
  right. exists fd. apply Z.leb_le in Hfd. auto.
Qed.

Lemma markWrites_closes (fds : list Z) : markWrites (map Close fds) = [].
Proof. induction fds as [| fd fds IH]; [reflexivity | exact IH]. Qed.

Lemma sockOpts_closes (fds : list Z) :
  filter isSockOptEvent (map Close fds) = [].
Proof. induction fds as [| fd fds IH]; [reflexivity | exact IH]. Qed.

(** Whatever happened, the status is sent, last, and the connection is
    closed. *)
Lemma onDataAvailable_responds client rx :
  exists calls,
    onDataAvailable client rx =
    (false,
     calls ++ [SendData (getSocket client) (fst (processClient client rx))]).
Proof.
  unfold onDataAvailable.
  destruct (processClient client rx) as [error st]. cbn [fst].
  eexists. reflexivity.
Qed.

(** ** Framing *)

Lemma hasDestinationAddress_redirect (c : CmdId) :
  hasDestinationAddress c true = true <->
  c = ON_SENDTO \/ c = ON_CONNECT \/ c = ON_SENDMSG \/ c = ON_SENDMMSG \/
  c = ON_CONNECT_COMPLETE.
Proof.
  unfold hasDestinationAddress.
  rewrite !orb_true_iff, !eqb_eq. tauto.
Qed.

Lemma hasDestinationAddress_plain (c : CmdId) :
  hasDestinationAddress c false = true <->
  c = ON_CONNECT \/ c = ON_CONNECT_COMPLETE.
Proof.
  unfold hasDestinationAddress.
  rewrite !orb_true_iff, !eqb_eq. tauto.
Qed.

(** C8.  A read of zero bytes is answered with ESHUTDOWN.  The expected
    length of a message is the size of the command, plus the size of the
    connect info exactly for the commands that carry a destination: ON_SENDTO,
    ON_CONNECT, ON_SENDMSG, ON_SENDMMSG and ON_CONNECT_COMPLETE when socket
    calls are redirected, ON_CONNECT and ON_CONNECT_COMPLETE when they are
    not.  A message of any other length, shorter or longer, is answered with
    EBADMSG before anything else is done.  On both returns a descriptor that
    came with the message is closed, by the destructor of the vector that
    holds it, and nothing else is called. *)
Theorem framing_rejects_unexpected_length client rx :
  let r := processClient client rx in
  (messageLength rx = 0 ->
   r = (- ESHUTDOWN, mkState (-1) (map Close (ownedDescriptors rx)))) /\
  (forall c,
      hasDestinationAddress c true = true <->
      c = ON_SENDTO \/ c = ON_CONNECT \/ c = ON_SENDMSG \/ c = ON_SENDMMSG \/
      c = ON_CONNECT_COMPLETE) /\
  (forall c,
      hasDestinationAddress c false = true <->
      c = ON_CONNECT \/ c = ON_CONNECT_COMPLETE) /\
  (forall c,
      expectedLen c =
      sizeof_command +
      (if hasDestinationAddress c (mRedirectSocketCalls this)
       then sizeof_connectInfo else 0)) /\
  (0 < messageLength rx ->
   messageLength rx <> expectedLen (cmdId (command rx)) ->
   r = (- EBADMSG, mkState (-1) (map Close (ownedDescriptors rx)))).
Proof.
  cbv zeta. repeat split.
  - intros H0. unfold processClient, run, processClient_body.
    rewrite H0. reflexivity.
  - apply hasDestinationAddress_redirect.
  - apply hasDestinationAddress_redirect.
  - apply hasDestinationAddress_plain.
  - apply hasDestinationAddress_plain.
  - intros c. unfold expectedLen.
    destruct (hasDestinationAddress c _); lia.
  - intros Hpos Hne. unfold processClient, run, processClient_body.
    assert (H1 : (messageLength rx <? 0) = false) by (apply Z.ltb_ge; lia).
    assert (H2 : (messageLength rx =? 0) = false) by (apply Z.eqb_neq; lia).
    apply Z.eqb_neq in Hne. rewrite H1, H2, Hne. reflexivity.
Qed.

(** ** QUERY_USER_ACCESS *)

(** C9.  A well-framed QUERY_USER_ACCESS is answered with EPERM when the
    caller lacks PERMISSION_SYSTEM, and with the status of
    [checkUserNetworkAccess] for the uid and network of the command when it
    has it.  Either way no socket option is read or written and no
    descriptor is taken, whatever descriptors came with the message; a
    descriptor that did come is closed on the return, by the destructor of
    the vector that holds it. *)
Theorem query_user_access_touches_no_socket client rx :
  wellFramed rx ->
  cmdId (command rx) = QUERY_USER_ACCESS ->
  let r := processClient client rx in
  let uid := uid (command rx) in
  let netId := netId (command rx) in
  (Z.land (callerPermission client) PERMISSION_SYSTEM <> PERMISSION_SYSTEM ->
   r = (- EPERM, mkState (-1) (map Close (ownedDescriptors rx)))) /\
  (Z.land (callerPermission client) PERMISSION_SYSTEM = PERMISSION_SYSTEM ->
   r = (checkUserNetworkAccess (mNetworkController this) uid netId,
        mkState (-1)
          (CheckUserNetworkAccess uid netId ::
           map Close (ownedDescriptors rx)))) /\
  filter isSockOptEvent (trace (snd r)) = [] /\
  socketFd (snd r) = -1.
Proof.
  intros [Hpos Hlen] Hcmd. cbv zeta.
  unfold processClient, run, processClient_body, callerPermission.
  assert (H1 : (messageLength rx <? 0) = false) by (apply Z.ltb_ge; lia).
  assert (H2 : (messageLength rx =? 0) = false) by (apply Z.eqb_neq; lia).
  assert (H3 : (messageLength rx =? expectedLen (cmdId (command rx))) = true)
    by (apply Z.eqb_eq; exact Hlen).
  rewrite H1, H2, H3, Hcmd, eqb_refl.
  cbn -[Z.land].
  destruct (Z.land _ PERMISSION_SYSTEM =? PERMISSION_SYSTEM) eqn:Hsys;
    cbn -[Z.land].
  - apply Z.eqb_eq in Hsys.
    repeat split; intros; try congruence. apply sockOpts_closes.
  - apply Z.eqb_neq in Hsys.
    repeat split; intros; try congruence. apply sockOpts_closes.
Qed.

(** ** What the [switch] leaves in the trace *)

Lemma markWrites_app (a b : list Event) :
  markWrites (a ++ b) = markWrites a ++ markWrites b.
Proof.
  induction a as [| e a IH]; [reflexivity|].
  destruct e; cbn; rewrite IH; reflexivity.
Qed.

(** The [switch] adds calls to the trace, none of them a marker write, and
    leaves [*socketFd] alone. *)
Lemma dispatch_trace client c ci fd family m p st :
  exists extra,
    trace (snd (dispatch client c ci fd family m p st)) = trace st ++ extra /\
    markWrites extra = [] /\
    socketFd (snd (dispatch client c ci fd family m p st)) = socketFd st.
Proof.
  unfold dispatch.
  destruct (cmdId c); cbn -[Z.land Z.lor]; split_ifs.
  all: try (exists []; rewrite app_nil_r; repeat split; reflexivity).
  all: try (eexists; split; [reflexivity | split; reflexivity]).
  all: eexists; split; [rewrite <- app_assoc; reflexivity | split; reflexivity].
Qed.

(** ** The gate on the descriptor *)

(** C10.  A well-framed command other than QUERY_USER_ACCESS - whichever it
    is, also one that never changes the marker and also an unknown one - is
    answered with EBADF unless exactly one valid descriptor came with it;
    then with EAFNOSUPPORT unless the family of the socket is supported; then
    with the error of the marker read if that fails; only then is the
    command dispatched.  On an unsupported family the status is not 0 and
    the traffic tagger is not called. *)
Theorem gate_precedes_dispatch client rx :
  wellFramed rx ->
  cmdId (command rx) <> QUERY_USER_ACCESS ->
  let r := processClient client rx in
  (~ (exists fd, received_fds rx = [fd] /\ 0 <= fd) ->
   r = (- EBADF, initialState)) /\
  (forall fd, received_fds rx = [fd] -> 0 <= fd ->
     (forall errno, getsockopt_SO_DOMAIN os fd = Err errno ->
        r = (- errno, mkState fd [Getsockopt fd SO_DOMAIN])) /\
     (forall family, getsockopt_SO_DOMAIN os fd = Ok family ->
        (isSupportedFamily family = false ->
           r = (- EAFNOSUPPORT, mkState fd [Getsockopt fd SO_DOMAIN]) /\
           fst r <> 0 /\
           filter isTagEvent (trace (snd r)) = []) /\
        (isSupportedFamily family = true ->
           (forall errno, getsockopt_SO_MARK os fd = Err errno ->
              r = (- errno,
                   mkState fd [Getsockopt fd SO_DOMAIN; Getsockopt fd SO_MARK])) /\
           (forall fwmark, getsockopt_SO_MARK os fd = Ok fwmark ->
              exists rest,
                trace (snd r) =
                [Getsockopt fd SO_DOMAIN; Getsockopt fd SO_MARK] ++ rest)))).
Proof.
  intros [Hpos Hlen] Hq. cbv zeta.
  assert (H1 : (messageLength rx <? 0) = false) by (apply Z.ltb_ge; lia).
  assert (H2 : (messageLength rx =? 0) = false) by (apply Z.eqb_neq; lia).
  assert (H3 : (messageLength rx =? expectedLen (cmdId (command rx))) = true)
    by (apply Z.eqb_eq; exact Hlen).
  split.
  - intros Hno.
    unfold processClient, run, processClient_body, return_owning.
    rewrite (ownedDescriptors_none rx Hno), H1, H2, H3, (eqb_neq _ _ Hq).
    destruct (received_fds rx) as [| fd [| fd' fds]]; cbn; try reflexivity.
    destruct (fd <? 0) eqn:Hfd; [reflexivity|].
    exfalso. apply Hno. exists fd. split; [reflexivity|].
    apply Z.ltb_ge in Hfd. exact Hfd.
  - intros fd Hfds Hfd.
    assert (H4 : (fd <? 0) = false) by (apply Z.ltb_ge; lia).
    split.
    + intros errno Hdom. unfold processClient, run, processClient_body.
      rewrite H1, H2, H3, (eqb_neq _ _ Hq), Hfds. cbn. rewrite H4. cbn.
      rewrite Hdom. reflexivity.
    + intros family Hdom. split.
      * intros Hsup. unfold processClient, run, processClient_body.
        rewrite H1, H2, H3, (eqb_neq _ _ Hq), Hfds. cbn. rewrite H4. cbn.
        rewrite Hdom. cbn. rewrite Hsup. cbn.
        repeat split. discriminate.
      * intros Hsup. split.
        -- intros errno Hmark. unfold processClient, run, processClient_body.
           rewrite H1, H2, H3, (eqb_neq _ _ Hq), Hfds. cbn. rewrite H4. cbn.
           rewrite Hdom. cbn. rewrite Hsup. cbn. rewrite Hmark. reflexivity.
        -- intros fwmark Hmark.
           rewrite (processClient_gated client rx fd family fwmark);
             [| split; assumption | assumption | repeat split; assumption].
           destruct (dispatch_trace client (command rx) (connectInfo rx) fd
                       family fwmark (callerPermission client)
                       (mkState fd [Getsockopt fd SO_DOMAIN;
                                    Getsockopt fd SO_MARK]))
             as (extra & Htr & _ & _).
           destruct (dispatch _ _ _ _ _ _ _ _) as [[locals | s] st];
             cbn in Htr |- *; rewrite Htr.
           ++ eexists. reflexivity.
           ++ eexists. reflexivity.
Qed.

(** ** Transitions of the marker *)

Lemma netIdField_valid (v : Z) : Fwmark.validNetId v -> Fwmark.netIdField v = v.
Proof. unfold Fwmark.validNetId, Fwmark.netIdField. intros H. apply Z.mod_small. exact H. Qed.

Lemma lor_keeps_bits (p q : Z) : Z.land q (Z.lor p q) = q.
Proof.
  apply Z.bits_inj'. intros n Hn.
  rewrite Z.land_spec, Z.lor_spec.
  destruct (Z.testbit p n), (Z.testbit q n); reflexivity.
Qed.

(** C5.  SELECT_NETWORK with NETID_UNSET, on a socket that passed the gate
    with any marker, writes the marker with netId unset, both flags false
    and permission NONE; no access check is made; the status is 0 (the write
    itself being the only call left that can fail). *)
Theorem select_network_unset_resets client rx fd family prior :
  wellFramed rx ->
  cmdId (command rx) = SELECT_NETWORK ->
  netId (command rx) = NETID_UNSET ->
  gated rx fd family prior ->
  let w := Fwmark.mk NETID_UNSET false false PERMISSION_NONE
             (Fwmark.otherBits prior) in
  let r := processClient client rx in
  trace (snd r) =
    [Getsockopt fd SO_DOMAIN; Getsockopt fd SO_MARK; SetsockoptMark fd w] /\
  markWrites (trace (snd r)) = [w] /\
  filter isAccessCheck (trace (snd r)) = [] /\
  fst r = match setsockopt_SO_MARK os fd w with
          | Ok _ => 0
          | Err errno => - errno
          end /\
  (forall u, setsockopt_SO_MARK os fd w = Ok u -> fst r = 0).
Proof.
  intros Hfr Hcmd Hnet Hg. cbv zeta.
  rewrite (processClient_gated client rx fd family prior Hfr); [| congruence | exact Hg].
  unfold dispatch. rewrite Hcmd, Hnet. cbn.
  change (Fwmark.set_permission _ _)
    with (Fwmark.mk NETID_UNSET false false PERMISSION_NONE
            (Fwmark.otherBits prior)).
  repeat split.
  intros u Hu. rewrite Hu. reflexivity.
Qed.

(** C6.  SELECT_NETWORK with a network other than NETID_UNSET, when
    [checkUserNetworkAccess] for the caller and that network does not return
    0, returns that very status and writes no marker. *)
Theorem select_network_denied_leaves_marker client rx fd family prior :
  wellFramed rx ->
  cmdId (command rx) = SELECT_NETWORK ->
  netId (command rx) <> NETID_UNSET ->
  gated rx fd family prior ->
  checkUserNetworkAccess (mNetworkController this) (getUid client)
    (netId (command rx)) <> 0 ->
  let r := processClient client rx in
  fst r = checkUserNetworkAccess (mNetworkController this) (getUid client)
            (netId (command rx)) /\
  markWrites (trace (snd r)) = [] /\
  trace (snd r) =
    [Getsockopt fd SO_DOMAIN; Getsockopt fd SO_MARK;
     CheckUserNetworkAccess (getUid client) (netId (command rx))].
Proof.
  intros Hfr Hcmd Hnet Hg Hacc. cbv zeta.
  rewrite (processClient_gated client rx fd family prior Hfr); [| congruence | exact Hg].
  unfold dispatch. rewrite Hcmd.
  apply Z.eqb_neq in Hnet, Hacc. rewrite Hnet. cbn. rewrite Hacc. cbn.
  repeat split.
Qed.

(** C7.  PROTECT_FROM_VPN by a caller that cannot protect returns EPERM and
    writes no marker.  By a caller that can, the marker written has
    protectedFromVpn set; its netId is the default network when the marker
    read was not explicitly selected and named a virtual network, and it is
    the netId read when the marker read was explicitly selected. *)
Theorem protect_from_vpn_transition client rx fd family prior :
  wellFramed rx ->
  cmdId (command rx) = PROTECT_FROM_VPN ->
  gated rx fd family prior ->
  let nc := mNetworkController this in
  let r := processClient client rx in
  (canProtect nc (getUid client) = false ->
   fst r = - EPERM /\ markWrites (trace (snd r)) = []) /\
  (canProtect nc (getUid client) = true ->
   exists w,
     markWrites (trace (snd r)) = [w] /\
     Fwmark.protectedFromVpn w = true /\
     (Fwmark.explicitlySelected prior = false ->
      isVirtualNetwork nc (Fwmark.netId prior) = true ->
      Fwmark.netId w = Fwmark.netIdField (getDefaultNetwork nc) /\
      (Fwmark.validNetId (getDefaultNetwork nc) ->
       Fwmark.netId w = getDefaultNetwork nc)) /\
     (Fwmark.explicitlySelected prior = true ->
      Fwmark.netId w = Fwmark.netId prior)).
Proof.
  intros Hfr Hcmd Hg. cbv zeta.
  rewrite (processClient_gated client rx fd family prior Hfr); [| congruence | exact Hg].
  unfold dispatch. rewrite Hcmd.
  split; intros Hcan; rewrite Hcan; cbn -[Z.lor].
  - split; reflexivity.
  - eexists. split; [reflexivity|]. split; [reflexivity|]. split.
    + intros He Hv. rewrite He, Hv. cbn. split; [reflexivity|].
      intros Hvalid. apply netIdField_valid. exact Hvalid.
    + intros He. rewrite He. reflexivity.
Qed.

(** A marker is written only past the gate. *)
Lemma processClient_write_gated client rx w :
  In w (markWrites (trace (snd (processClient client rx)))) ->
  wellFramed rx /\
  cmdId (command rx) <> QUERY_USER_ACCESS /\
  exists fd family prior, gated rx fd family prior.
Proof.
  unfold processClient, run, processClient_body, return_owning,
    wellFramed, gated.
  destruct (messageLength rx <? 0) eqn:H1;
    [cbn; rewrite markWrites_closes; intros []|].
  destruct (messageLength rx =? 0) eqn:H2;
    [cbn; rewrite markWrites_closes; intros []|].
  destruct (messageLength rx =? expectedLen (cmdId (command rx))) eqn:H3;
    [|cbn; rewrite markWrites_closes; intros []].
  destruct (eqb (cmdId (command rx)) QUERY_USER_ACCESS) eqn:H4.
  { cbn -[Z.land]. destruct (Z.land _ _ =? _); cbn;
      rewrite markWrites_closes; intros []. }
  destruct (received_fds rx) as [| fd [| fd' fds]]; cbn -[dispatch];
    rewrite ?markWrites_closes; try solve [intros []].
  destruct (fd <? 0) eqn:H5; cbn -[dispatch];
    rewrite ?markWrites_closes; [intros []|].
  destruct (getsockopt_SO_DOMAIN os fd) as [family |] eqn:H6;
    cbn -[dispatch]; [|intros []].
  destruct (isSupportedFamily family) eqn:H7; cbn -[dispatch]; [|intros []].
  destruct (getsockopt_SO_MARK os fd) as [prior |] eqn:H8;
    cbn -[dispatch]; [|intros []].
  intros _.
  apply Z.ltb_ge in H1, H5. apply Z.eqb_neq in H2. apply Z.eqb_eq in H3.
  split; [lia|]. split.
  - intros E. rewrite E, eqb_refl in H4. discriminate.
  - exists fd, family, prior. repeat split; assumption.
Qed.

(** Past the gate, the marker written is the one the [switch] left, with the
    permission the [switch] left; the write is the last call of the run and
    the only write. *)
Lemma processClient_written client rx fd family prior w :
  wellFramed rx ->
  cmdId (command rx) <> QUERY_USER_ACCESS ->
  gated rx fd family prior ->
  In w (markWrites (trace (snd (processClient client rx)))) ->
  exists locals st,
    dispatch client (command rx) (connectInfo rx) fd family prior
      (callerPermission client)
      (mkState fd [Getsockopt fd SO_DOMAIN; Getsockopt fd SO_MARK]) =
    (Continue locals, st) /\
    w = Fwmark.set_permission (fst locals) (snd locals) /\
    trace (snd (processClient client rx)) =
      trace st ++ [SetsockoptMark fd w] /\
    markWrites (trace st) = [].
Proof.
  intros Hfr Hq Hg.
  rewrite (processClient_gated client rx fd family prior Hfr Hq Hg).
  destruct (dispatch_trace client (command rx) (connectInfo rx) fd family
              prior (callerPermission client)
              (mkState fd [Getsockopt fd SO_DOMAIN; Getsockopt fd SO_MARK]))
    as (extra & Htr & Hextra & _).
  destruct (dispatch _ _ _ _ _ _ _ _) as [[locals | s] st];
    cbn [snd trace fst] in *.
  - assert (Hno : markWrites (trace st) = []).
    { rewrite Htr, markWrites_app, Hextra. reflexivity. }
    rewrite markWrites_app, Hno. cbn.
    intros [E | []]. subst w.
    exists locals, st. repeat split. exact Hno.
  - rewrite Htr, markWrites_app, Hextra. cbn. intros [].
Qed.

(** Only the six commands whose [case] ends in [break] leave the [switch]. *)
Lemma dispatch_continue_cmd client c ci fd family prior p st locals st' :
  dispatch client c ci fd family prior p st = (Continue locals, st') ->
  reachesWriteBack (cmdId c).
Proof.
  unfold dispatch, reachesWriteBack.
  destruct (cmdId c); cbn -[Z.land Z.lor]; intros H;
    try discriminate H; tauto.
Qed.

(** When one of them returns instead, it returns an error. *)
Lemma dispatch_return_cmd client c ci fd family prior p st s st' :
  reachesWriteBack (cmdId c) ->
  dispatch client c ci fd family prior p st = (Return s, st') ->
  s <> 0.
Proof.
  unfold dispatch, reachesWriteBack.
  intros Hc.
  destruct (cmdId c); cbn -[Z.land Z.lor];
    try (exfalso; decompose [or] Hc; discriminate);
    split_ifs; intros H; try discriminate H.
  - injection H as <- _.
    match goal with E : negb (_ =? 0) = true |- _ =>
      apply negb_true_iff, Z.eqb_neq in E; exact E end.
  - injection H as <- _. discriminate.
  - injection H as <- _. discriminate.
Qed.

(** The permission the [switch] leaves: the caller's permission joined with
    the marker's by ON_ACCEPT and PROTECT_FROM_VPN, the caller's permission
    alone by the other commands, but for the reset. *)
Lemma dispatch_permission client c ci fd family prior p st locals st' :
  dispatch client c ci fd family prior p st = (Continue locals, st') ->
  (cmdId c = ON_ACCEPT \/ cmdId c = PROTECT_FROM_VPN ->
   snd locals = Z.lor p (Fwmark.permission prior)) /\
  (cmdId c = ON_CONNECT \/ cmdId c = ON_CONNECT_COMPLETE \/
   cmdId c = SELECT_FOR_USER \/
   (cmdId c = SELECT_NETWORK /\ netId c <> NETID_UNSET) ->
   snd locals = p).
Proof.
  unfold dispatch.
  destruct (cmdId c) eqn:Hc; cbn -[Z.land Z.lor]; split_ifs;
    intros H; try discriminate H; injection H as <- _;
    cbn -[Z.land Z.lor]; split; intros Hor;
    try reflexivity;
    try (exfalso; decompose [or and] Hor; discriminate).
  exfalso. decompose [or and] Hor; try discriminate.
  match goal with E : (netId c =? NETID_UNSET) = true |- _ =>
    apply Z.eqb_eq in E; contradiction end.
Qed.

(** ** ON_CONNECT *)

(** The marker ON_CONNECT writes when the marker read is not explicitly
    selected, with the netId as the field stores it. *)
Lemma on_connect_stores_netId client rx fd family prior :
  wellFramed rx ->
  cmdId (command rx) = ON_CONNECT ->
  gated rx fd family prior ->
  Fwmark.explicitlySelected prior = false ->
  let nc := mNetworkController this in
  let sin6 := FwmarkConnectInfo.addr (connectInfo rx) in
  let scope_id := FwmarkConnectInfo.sin6_scope_id sin6 in
  let linkLocal :=
    family = AF_INET6 /\ scope_id <> 0 /\
    IN6_IS_ADDR_LINKLOCAL (FwmarkConnectInfo.sin6_addr sin6) = true in
  exists w,
    trace (snd (processClient client rx)) =
      [Getsockopt fd SO_DOMAIN; Getsockopt fd SO_MARK; SetsockoptMark fd w] /\
    (linkLocal ->
     Fwmark.netId w = Fwmark.netIdField (getNetworkForInterface nc scope_id)) /\
    (~ linkLocal -> Fwmark.protectedFromVpn prior = false ->
     Fwmark.netId w =
     Fwmark.netIdField (getNetworkForConnect nc (getUid client))) /\
    (~ linkLocal -> Fwmark.protectedFromVpn prior = true ->
     isVirtualNetwork nc (Fwmark.netId prior) = false ->
     Fwmark.netId w = Fwmark.netIdField (getDefaultNetwork nc)) /\
    (~ linkLocal -> Fwmark.protectedFromVpn prior = true ->
     isVirtualNetwork nc (Fwmark.netId prior) = true ->
     Fwmark.netId w = Fwmark.netId prior).
Proof.
  intros Hfr Hcmd Hg Hexp. cbv zeta.
  rewrite (processClient_gated client rx fd family prior Hfr);
    [| congruence | exact Hg].
  unfold dispatch. rewrite Hcmd, Hexp. cbn [negb].
  destruct ((family =? AF_INET6)
            && negb (FwmarkConnectInfo.sin6_scope_id
                       (FwmarkConnectInfo.addr (connectInfo rx)) =? 0)
            && IN6_IS_ADDR_LINKLOCAL
                 (FwmarkConnectInfo.sin6_addr
                    (FwmarkConnectInfo.addr (connectInfo rx)))) eqn:Hll.
  - cbn. eexists. split; [reflexivity|].
    apply andb_true_iff in Hll as [Hll Hl].
    apply andb_true_iff in Hll as [Hf Hs].
    apply Z.eqb_eq in Hf. apply negb_true_iff, Z.eqb_neq in Hs.
    repeat split; try reflexivity; intros Hn; exfalso; apply Hn; auto.
  - assert (Hnot : ~ (family = AF_INET6 /\
                      FwmarkConnectInfo.sin6_scope_id
                        (FwmarkConnectInfo.addr (connectInfo rx)) <> 0 /\
                      IN6_IS_ADDR_LINKLOCAL
                        (FwmarkConnectInfo.sin6_addr
                           (FwmarkConnectInfo.addr (connectInfo rx))) = true)).
    { intros (Hf & Hs & Hl).
      apply Z.eqb_eq in Hf. apply Z.eqb_neq in Hs.
      rewrite Hf, Hs, Hl in Hll. discriminate. }
    destruct (Fwmark.protectedFromVpn prior) eqn:Hp; cbn [negb].
    + destruct (isVirtualNetwork (mNetworkController this)
                  (Fwmark.netId prior)) eqn:Hv; cbn;
        eexists; (split; [reflexivity|]);
        repeat split; try reflexivity; try discriminate;
        intros; contradiction.
    + cbn. eexists. split; [reflexivity|].
      repeat split; try reflexivity; try discriminate;
        intros; contradiction.
Qed.

(** C2.  ON_CONNECT on a marker that is not explicitly selected chooses the
    netId it writes so: the network of the interface when the socket is
    AF_INET6 and the destination has a scope id other than 0 and is
    link-local; else the network for connect of the caller (a bypassable VPN
    or the default network) when the marker is not protected from VPN; else
    the default network when the netId read is not a virtual network, and
    the netId read when it is. *)
Theorem on_connect_chooses_netId client rx fd family prior :
  wellFramed rx ->
  cmdId (command rx) = ON_CONNECT ->
  gated rx fd family prior ->
  Fwmark.explicitlySelected prior = false ->
  netIdsFit (mNetworkController this) ->
  let nc := mNetworkController this in
  let sin6 := FwmarkConnectInfo.addr (connectInfo rx) in
  let scope_id := FwmarkConnectInfo.sin6_scope_id sin6 in
  let linkLocal :=
    family = AF_INET6 /\ scope_id <> 0 /\
    IN6_IS_ADDR_LINKLOCAL (FwmarkConnectInfo.sin6_addr sin6) = true in
  exists w,
    markWrites (trace (snd (processClient client rx))) = [w] /\
    (linkLocal -> Fwmark.netId w = getNetworkForInterface nc scope_id) /\
    (~ linkLocal -> Fwmark.protectedFromVpn prior = false ->
     Fwmark.netId w = getNetworkForConnect nc (getUid client)) /\
    (~ linkLocal -> Fwmark.protectedFromVpn prior = true ->
     isVirtualNetwork nc (Fwmark.netId prior) = false ->
     Fwmark.netId w = getDefaultNetwork nc) /\
    (~ linkLocal -> Fwmark.protectedFromVpn prior = true ->
     isVirtualNetwork nc (Fwmark.netId prior) = true ->
     Fwmark.netId w = Fwmark.netId prior).
Proof.
  intros Hfr Hcmd Hg Hexp (Hif & Hco & _ & Hdef). cbv zeta.
  destruct (on_connect_stores_netId client rx fd family prior Hfr Hcmd Hg Hexp)
    as (w & Htr & H1 & H2 & H3 & H4).
  exists w. rewrite Htr. split; [reflexivity|]. repeat split.
  - intros Hl. rewrite (H1 Hl). apply netIdField_valid, Hif.
  - intros Hl Hp. rewrite (H2 Hl Hp). apply netIdField_valid, Hco.
  - intros Hl Hp Hv. rewrite (H3 Hl Hp Hv). apply netIdField_valid, Hdef.
  - exact H4.
Qed.

(** C3, as the code has it.  ON_CONNECT on a marker that is explicitly
    selected writes back the netId and both flags it read; the permission it
    writes is the caller's permission, which replaces the one read.  The
    marker written is the marker read when the two permissions agree. *)
Theorem on_connect_explicit_keeps_selection client rx fd family prior :
  wellFramed rx ->
  cmdId (command rx) = ON_CONNECT ->
  gated rx fd family prior ->
  Fwmark.explicitlySelected prior = true ->
  let w := Fwmark.set_permission prior (callerPermission client) in
  trace (snd (processClient client rx)) =
    [Getsockopt fd SO_DOMAIN; Getsockopt fd SO_MARK; SetsockoptMark fd w] /\
  Fwmark.netId w = Fwmark.netId prior /\
  Fwmark.explicitlySelected w = true /\
  Fwmark.protectedFromVpn w = Fwmark.protectedFromVpn prior /\
  Fwmark.otherBits w = Fwmark.otherBits prior /\
  Fwmark.permission w = callerPermission client /\
  (callerPermission client = Fwmark.permission prior -> w = prior).
Proof.
  intros Hfr Hcmd Hg Hexp. cbv zeta.
  rewrite (processClient_gated client rx fd family prior Hfr);
    [| congruence | exact Hg].
  unfold dispatch. rewrite Hcmd, Hexp. cbn.
  repeat split; try assumption.
  intros E. unfold Fwmark.set_permission. rewrite E.
  destruct prior; reflexivity.
Qed.

(** ** The permission written *)

(** C4, as the code has it.  ON_ACCEPT and PROTECT_FROM_VPN write the
    bitwise OR of the caller's permission and the permission read, so every
    bit of the permission read is in the permission written.  ON_CONNECT,
    ON_CONNECT_COMPLETE, SELECT_FOR_USER and SELECT_NETWORK with a network
    other than NETID_UNSET write the caller's permission in place of the one
    read. *)
Theorem permission_written client rx fd family prior w :
  wellFramed rx ->
  gated rx fd family prior ->
  In w (markWrites (trace (snd (processClient client rx)))) ->
  let c := cmdId (command rx) in
  (c = ON_ACCEPT \/ c = PROTECT_FROM_VPN ->
   Fwmark.permission w =
     Z.lor (callerPermission client) (Fwmark.permission prior) /\
   Z.land (Fwmark.permission prior) (Fwmark.permission w) =
     Fwmark.permission prior) /\
  (c = ON_CONNECT \/ c = ON_CONNECT_COMPLETE \/ c = SELECT_FOR_USER \/
   (c = SELECT_NETWORK /\ netId (command rx) <> NETID_UNSET) ->
   Fwmark.permission w = callerPermission client).
Proof.
  intros Hfr Hg Hin. cbv zeta.
  destruct (processClient_write_gated client rx w Hin) as (_ & Hq & _).
  destruct (processClient_written client rx fd family prior w Hfr Hq Hg Hin)
    as (locals & st & Hd & Hw & _ & _).
  destruct (dispatch_permission _ _ _ _ _ _ _ _ _ _ Hd) as [Hor Hrep].
  subst w. cbn [Fwmark.set_permission Fwmark.permission]. split.
  - intros Hc. rewrite (Hor Hc). split; [reflexivity|]. apply lor_keeps_bits.
  - intros Hc. exact (Hrep Hc).
Qed.

(** ** The write-back *)

(** The marker SELECT_NETWORK leaves for a network id that fits the field
    has the unset netId only after the reset. *)
Lemma select_network_locals client c ci fd family prior p st locals st' :
  cmdId c = SELECT_NETWORK ->
  Fwmark.validNetId (netId c) ->
  dispatch client c ci fd family prior p st = (Continue locals, st') ->
  Fwmark.netId (fst locals) = NETID_UNSET ->
  Fwmark.explicitlySelected (fst locals) = false /\
  Fwmark.protectedFromVpn (fst locals) = false /\
  snd locals = PERMISSION_NONE.
Proof.
  intros Hc Hvalid. unfold dispatch. rewrite Hc.
  destruct (netId c =? NETID_UNSET) eqn:Hnet; cbn.
  - intros H. injection H as <- _. cbn. auto.
  - destruct (negb _); cbn; intros H; [discriminate H|].
    injection H as <- _. cbn.
    rewrite (netIdField_valid _ Hvalid). apply Z.eqb_neq in Hnet. contradiction.
Qed.

(** C1, as the code has it.  A run writes the marker at most once.  A write
    is made by one of ON_ACCEPT, ON_CONNECT, ON_CONNECT_COMPLETE,
    SELECT_NETWORK, PROTECT_FROM_VPN and SELECT_FOR_USER, is the last call of
    the run, and carries the whole marker: netId, permission and both flags
    go to the socket in that one update.  Each of these commands, past the
    gate, has written once when it returns 0.  The marker SELECT_NETWORK
    writes, for a network id that fits the field, is reset when its netId is
    unset: both flags false and permission NONE.  The other commands give no
    such guarantee. *)
Theorem marker_written_once_and_whole client rx :
  let r := processClient client rx in
  let tr := trace (snd r) in
  let c := cmdId (command rx) in
  (List.length (markWrites tr) <= 1)%nat /\
  (forall w, In w (markWrites tr) ->
     reachesWriteBack c /\
     exists fd pre,
       tr = pre ++ [SetsockoptMark fd w] /\ markWrites pre = []) /\
  (forall fd family prior,
     wellFramed rx -> gated rx fd family prior -> reachesWriteBack c ->
     fst r = 0 ->
     exists w, markWrites tr = [w]) /\
  (forall w, In w (markWrites tr) ->
     c = SELECT_NETWORK ->
     Fwmark.validNetId (netId (command rx)) ->
     Fwmark.netId w = NETID_UNSET ->
     Fwmark.explicitlySelected w = false /\
     Fwmark.protectedFromVpn w = false /\
     Fwmark.permission w = PERMISSION_NONE).
Proof.
  cbv zeta.
  assert (Hone : forall w,
             In w (markWrites (trace (snd (processClient client rx)))) ->
             exists fd family prior locals st,
               wellFramed rx /\ gated rx fd family prior /\
               dispatch client (command rx) (connectInfo rx) fd family prior
                 (callerPermission client)
                 (mkState fd [Getsockopt fd SO_DOMAIN; Getsockopt fd SO_MARK])
               = (Continue locals, st) /\
               w = Fwmark.set_permission (fst locals) (snd locals) /\
               trace (snd (processClient client rx)) =
                 trace st ++ [SetsockoptMark fd w] /\
               markWrites (trace st) = []).
  { intros w Hin.
    destruct (processClient_write_gated client rx w Hin)
      as (Hfr & Hq & fd & family & prior & Hg).
    destruct (processClient_written client rx fd family prior w Hfr Hq Hg Hin)
      as (locals & st & Hd & Hw & Htr & Hno).
    exists fd, family, prior, locals, st. auto 10. }
  split; [|split; [|split]].
  - destruct (markWrites (trace (snd (processClient client rx))))
      as [| w ws] eqn:Hws; [cbn; lia|].
    destruct (Hone w (or_introl eq_refl))
      as (fd & family & prior & locals & st & _ & _ & _ & _ & Htr & Hno).
    rewrite Htr, markWrites_app, Hno in Hws. cbn in Hws.
    injection Hws as <-. cbn. lia.
  - intros w Hin.
    destruct (Hone w Hin)
      as (fd & family & prior & locals & st & _ & _ & Hd & _ & Htr & Hno).
    split; [exact (dispatch_continue_cmd _ _ _ _ _ _ _ _ _ _ Hd)|].
    exists fd, (trace st). auto.
  - intros fd family prior Hfr Hg Hc.
    assert (Hq : cmdId (command rx) <> QUERY_USER_ACCESS).
    { intros E. unfold reachesWriteBack in Hc. rewrite E in Hc.
      decompose [or] Hc; discriminate. }
    rewrite (processClient_gated client rx fd family prior Hfr Hq Hg).
    destruct (dispatch_trace client (command rx) (connectInfo rx) fd family
                prior (callerPermission client)
                (mkState fd [Getsockopt fd SO_DOMAIN; Getsockopt fd SO_MARK]))
      as (extra & Htr & Hextra & _).
    destruct (dispatch _ _ _ _ _ _ _ _) as [[locals | s] st] eqn:Hd;
      cbn [fst snd trace] in *.
    + intros _. eexists.
      rewrite markWrites_app, Htr, markWrites_app, Hextra. reflexivity.
    + intros E. exfalso.
      exact (dispatch_return_cmd _ _ _ _ _ _ _ _ _ _ Hc Hd E).
  - intros w Hin Hc Hvalid Hunset.
    destruct (Hone w Hin)
      as (fd & family & prior & locals & st & _ & _ & Hd & Hw & _ & _).
    subst w. cbn in Hunset |- *.
    destruct (select_network_locals _ _ _ _ _ _ _ _ _ _ Hc Hvalid Hd Hunset)
      as (He & Hp & Hperm).
    auto.
Qed.

(** * The rest of the request *)

(** ** The shapes of a run *)

(** A run stops at the framing, answers a query, stops at the gate, or goes
    through the [switch]. *)
Lemma processClient_cases client rx :
  let r := processClient client rx in
  let closes := map Close (ownedDescriptors rx) in
  (~ wellFramed rx /\ snd r = mkState (-1) closes /\
   ((messageLength rx < 0 /\ fst r = - recv_errno rx) \/
    (messageLength rx = 0 /\ fst r = - ESHUTDOWN) \/
    (0 < messageLength rx /\ fst r = - EBADMSG))) \/
  (wellFramed rx /\ cmdId (command rx) = QUERY_USER_ACCESS /\
   (r = (- EPERM, mkState (-1) closes) \/
    r = (checkUserNetworkAccess (mNetworkController this)
           (uid (command rx)) (netId (command rx)),
         mkState (-1)
           (CheckUserNetworkAccess (uid (command rx)) (netId (command rx))
            :: closes)))) \/
  (wellFramed rx /\ cmdId (command rx) <> QUERY_USER_ACCESS /\
   ~ (exists fd, received_fds rx = [fd] /\ 0 <= fd) /\
   r = (- EBADF, initialState)) \/
  (wellFramed rx /\ cmdId (command rx) <> QUERY_USER_ACCESS /\
   exists fd, received_fds rx = [fd] /\ 0 <= fd /\
     ((exists errno, getsockopt_SO_DOMAIN os fd = Err errno /\
         r = (- errno, mkState fd [Getsockopt fd SO_DOMAIN])) \/
      (exists family, getsockopt_SO_DOMAIN os fd = Ok family /\
         isSupportedFamily family = false /\
         r = (- EAFNOSUPPORT, mkState fd [Getsockopt fd SO_DOMAIN])) \/
      (exists family errno, getsockopt_SO_DOMAIN os fd = Ok family /\
         isSupportedFamily family = true /\
         getsockopt_SO_MARK os fd = Err errno /\
         r = (- errno,
              mkState fd [Getsockopt fd SO_DOMAIN; Getsockopt fd SO_MARK])) \/
      (exists family prior, gated rx fd family prior))).
Proof.
  cbv zeta.
  unfold processClient, run, processClient_body, return_owning,
    wellFramed, gated.
  destruct (messageLength rx <? 0) eqn:H1.
  { apply Z.ltb_lt in H1. left. cbn. split; [lia|]. auto. }
  apply Z.ltb_ge in H1.
  destruct (messageLength rx =? 0) eqn:H2.
  { apply Z.eqb_eq in H2. left. cbn. split; [lia|]. auto. }
  apply Z.eqb_neq in H2.
  destruct (messageLength rx =? expectedLen (cmdId (command rx))) eqn:H3.
  2:{ apply Z.eqb_neq in H3. left. cbn. split; [tauto|].
      split; [reflexivity|]. right. right. split; [lia | reflexivity]. }
  apply Z.eqb_eq in H3. right.
  assert (Hfr : 0 < messageLength rx /\
                messageLength rx = expectedLen (cmdId (command rx)))
    by (split; [lia | exact H3]).
  destruct (eqb (cmdId (command rx)) QUERY_USER_ACCESS) eqn:H4.
  { apply eqb_eq in H4. left. split; [exact Hfr|]. split; [exact H4|].
    cbn -[Z.land]. destruct (Z.land _ _ =? _); cbn; auto. }
  assert (Hq : cmdId (command rx) <> QUERY_USER_ACCESS).
  { intros E. rewrite E, eqb_refl in H4. discriminate. }
  right.
  destruct (ownedDescriptors_cases rx)
    as [Hnone | (fd & Hfds & Hfd & _)].
  - left. split; [exact Hfr|]. split; [exact Hq|].
    assert (Hno : ~ (exists fd, received_fds rx = [fd] /\ 0 <= fd)).
    { intros (fd & Hfds & Hfd).
      rewrite (ownedDescriptors_one rx fd Hfds Hfd) in Hnone.
      discriminate. }
    split; [exact Hno|]. rewrite Hnone.
    destruct (received_fds rx) as [| fd [| fd' fds]]; cbn; try reflexivity.
    destruct (fd <? 0) eqn:H5; [reflexivity|].
    exfalso. apply Hno. exists fd. split; [reflexivity|].
    apply Z.ltb_ge. exact H5.
  - right. split; [exact Hfr|]. split; [exact Hq|].
    exists fd. split; [exact Hfds|]. split; [exact Hfd|].
    rewrite Hfds. cbn -[dispatch].
    assert (H5 : (fd <? 0) = false) by (apply Z.ltb_ge; exact Hfd).
    rewrite H5. cbn -[dispatch].
    destruct (getsockopt_SO_DOMAIN os fd) as [family | errno] eqn:H6;
      cbn -[dispatch].
    2:{ left. exists errno. auto. }
    destruct (isSupportedFamily family) eqn:H7; cbn -[dispatch].
    2:{ right. left. exists family. auto. }
    destruct (getsockopt_SO_MARK os fd) as [prior | errno] eqn:H8;
      cbn -[dispatch].
    2:{ right. right. left. exists family, errno. auto. }
    right. right. right. exists family, prior. auto 10.
Qed.

(** The calls of the [switch] are calls of the command, on the descriptor. *)
Lemma dispatch_calls client c ci fd family m p st :
  exists extra,
    trace (snd (dispatch client c ci fd family m p st)) = trace st ++ extra /\
    Forall (engineCall client c ci fd) extra.
Proof.
  unfold dispatch.
  destruct (cmdId c) eqn:Hc; cbn -[Z.land Z.lor]; split_ifs.
  all: try (exists []; rewrite app_nil_r; split; [reflexivity | constructor]).
  all: eexists;
    (split; [first [reflexivity | rewrite <- app_assoc; reflexivity]|]);
    repeat first [apply Forall_nil | apply Forall_cons]; cbn;
    match goal with
    | |- _ /\ (_ \/ _) =>
        split; [reflexivity|]; right; repeat split; auto;
        match goal with E : (_ =? NETID_UNSET) = false |- _ =>
          apply Z.eqb_neq in E; exact E end
    | |- _ => repeat split; auto
    end.
Qed.

(** ** Messages that do not pass the framing *)

(** A receive error is returned as [-errno].  Whatever fails the framing,
    no descriptor is taken and nothing is called - but that a descriptor
    which came with the message is closed on the return, by the destructor
    of the vector that holds it. *)
Theorem unframed_message_is_dropped client rx :
  ~ wellFramed rx ->
  let r := processClient client rx in
  snd r = mkState (-1) (map Close (ownedDescriptors rx)) /\
  (messageLength rx < 0 -> fst r = - recv_errno rx) /\
  (0 <= messageLength rx -> fst r = - ESHUTDOWN \/ fst r = - EBADMSG).
Proof.
  intros Hnot. cbv zeta.
  destruct (processClient_cases client rx)
    as [(_ & Hst & Hcase) | [(Hfr & _) | [(Hfr & _) | (Hfr & _)]]];
    try contradiction.
  split; [exact Hst|].
  destruct Hcase as [(Hlen & Hs) | [(Hlen & Hs) | (Hlen & Hs)]];
    split; intros; try lia; auto.
Qed.

(** ** Commands that leave the marker alone *)

(** ON_SENDTO, ON_SENDMSG and ON_SENDMMSG, past the gate, return 0 at once:
    after the two reads of the gate nothing is called and nothing is
    written. *)
Theorem send_commands_return_at_once client rx fd family prior :
  wellFramed rx ->
  cmdId (command rx) = ON_SENDTO \/ cmdId (command rx) = ON_SENDMSG \/
  cmdId (command rx) = ON_SENDMMSG ->
  gated rx fd family prior ->
  processClient client rx =
  (0, mkState fd [Getsockopt fd SO_DOMAIN; Getsockopt fd SO_MARK]).
Proof.
  intros Hfr Hcmd Hg.
  rewrite (processClient_gated client rx fd family prior Hfr);
    [| destruct Hcmd as [E | [E | E]]; rewrite E; discriminate | exact Hg].
  unfold dispatch.
  destruct Hcmd as [E | [E | E]]; rewrite E; reflexivity.
Qed.

Lemma to_int_all_ones (v : Z) :
  0 <= v < 2 ^ 32 -> (to_int v =? -1) = (v =? 4294967295).
Proof.
  intros Hv. unfold to_int. rewrite Z.mod_small by exact Hv.
  change (2 ^ 32) with 4294967296 in *. change (2 ^ 31) with 2147483648.
  destruct (v <? 2147483648) eqn:Hlt.
  - apply Z.ltb_lt in Hlt.
    transitivity false; [apply Z.eqb_neq | symmetry; apply Z.eqb_neq]; lia.
  - apply Z.ltb_ge in Hlt.
    destruct (v =? 4294967295) eqn:E.
    + apply Z.eqb_eq in E. apply Z.eqb_eq. lia.
    + apply Z.eqb_neq in E. apply Z.eqb_neq. lia.
Qed.

(** TAG_SOCKET, past the gate, calls the tagger once on the descriptor, with
    the traffic control info of the command and the uid of the caller, and
    returns what the tagger returns; no marker is written.  The uid to tag
    is the uid of the command, but the caller's own uid when the command
    carries 0xFFFFFFFF (that is -1). *)
Theorem tag_socket_forwards client rx fd family prior :
  wellFramed rx ->
  cmdId (command rx) = TAG_SOCKET ->
  gated rx fd family prior ->
  0 <= uid (command rx) < 2 ^ 32 ->
  let info := trafficCtrlInfo (command rx) in
  let tagged :=
    if uid (command rx) =? 4294967295 then getUid client
    else uid (command rx) in
  processClient client rx =
  (libnetd_updatable_tagSocket os fd info tagged (getUid client),
   mkState fd [Getsockopt fd SO_DOMAIN; Getsockopt fd SO_MARK;
               TagSocket fd info tagged (getUid client)]).
Proof.
  intros Hfr Hcmd Hg Huid. cbv zeta.
  rewrite (processClient_gated client rx fd family prior Hfr);
    [| congruence | exact Hg].
  unfold dispatch. rewrite Hcmd, (to_int_all_ones _ Huid). reflexivity.
Qed.

(** UNTAG_SOCKET, past the gate, calls the untagger on the descriptor and
    returns what it returns, whoever the caller is: no permission is looked
    at and no marker is written. *)
Theorem untag_socket_forwards client rx fd family prior :
  wellFramed rx ->
  cmdId (command rx) = UNTAG_SOCKET ->
  gated rx fd family prior ->
  processClient client rx =
  (libnetd_updatable_untagSocket os fd,
   mkState fd [Getsockopt fd SO_DOMAIN; Getsockopt fd SO_MARK;
               UntagSocket fd]).
Proof.
  intros Hfr Hcmd Hg.
  rewrite (processClient_gated client rx fd family prior Hfr);
    [| congruence | exact Hg].
  unfold dispatch. rewrite Hcmd. reflexivity.
Qed.

(** A command id that is none of the enumerators, past the gate, is
    answered with EPROTO; the marker is read but not written. *)
Theorem unknown_command_is_protocol_error client rx fd family prior raw :
  wellFramed rx ->
  cmdId (command rx) = UNKNOWN raw ->
  gated rx fd family prior ->
  processClient client rx =
  (- EPROTO, mkState fd [Getsockopt fd SO_DOMAIN; Getsockopt fd SO_MARK]).
Proof.
  intros Hfr Hcmd Hg.
  rewrite (processClient_gated client rx fd family prior Hfr);
    [| congruence | exact Hg].
  unfold dispatch. rewrite Hcmd. reflexivity.
Qed.

(** ** The other transitions *)

(** SELECT_NETWORK with a network other than NETID_UNSET that the caller may
    use: the access check is made once, for the caller's uid; the marker
    written names the network, is explicitly selected, is protected from VPN
    exactly when the caller can protect, and carries the caller's
    permission. *)
Theorem select_network_selects client rx fd family prior :
  wellFramed rx ->
  cmdId (command rx) = SELECT_NETWORK ->
  netId (command rx) <> NETID_UNSET ->
  gated rx fd family prior ->
  checkUserNetworkAccess (mNetworkController this) (getUid client)
    (netId (command rx)) = 0 ->
  let w := Fwmark.mk (Fwmark.netIdField (netId (command rx))) true
             (canProtect (mNetworkController this) (getUid client))
             (callerPermission client) (Fwmark.otherBits prior) in
  trace (snd (processClient client rx)) =
    [Getsockopt fd SO_DOMAIN; Getsockopt fd SO_MARK;
     CheckUserNetworkAccess (getUid client) (netId (command rx));
     SetsockoptMark fd w] /\
  (Fwmark.validNetId (netId (command rx)) ->
   Fwmark.netId w = netId (command rx)).
Proof.
  intros Hfr Hcmd Hnet Hg Hacc. cbv zeta.
  rewrite (processClient_gated client rx fd family prior Hfr);
    [| congruence | exact Hg].
  unfold dispatch. rewrite Hcmd.
  apply Z.eqb_neq in Hnet. rewrite Hnet. cbn. rewrite Hacc. cbn.
  split; [reflexivity|]. apply netIdField_valid.
Qed.

(** SELECT_FOR_USER by a caller without PERMISSION_SYSTEM returns EPERM and
    writes nothing.  By a caller with it, the marker written names the
    network of the user in the command, is protected from VPN, keeps the
    explicit bit it had, and carries the caller's permission. *)
Theorem select_for_user_transition client rx fd family prior :
  wellFramed rx ->
  cmdId (command rx) = SELECT_FOR_USER ->
  gated rx fd family prior ->
  let r := processClient client rx in
  let w := Fwmark.mk
             (Fwmark.netIdField
                (getNetworkForUser (mNetworkController this)
                   (uid (command rx))))
             (Fwmark.explicitlySelected prior) true
             (callerPermission client) (Fwmark.otherBits prior) in
  (Z.land (callerPermission client) PERMISSION_SYSTEM <> PERMISSION_SYSTEM ->
   r = (- EPERM,
        mkState fd [Getsockopt fd SO_DOMAIN; Getsockopt fd SO_MARK])) /\
  (Z.land (callerPermission client) PERMISSION_SYSTEM = PERMISSION_SYSTEM ->
   trace (snd r) =
     [Getsockopt fd SO_DOMAIN; Getsockopt fd SO_MARK; SetsockoptMark fd w]).
Proof.
  intros Hfr Hcmd Hg. cbv zeta.
  rewrite (processClient_gated client rx fd family prior Hfr);
    [| congruence | exact Hg].
  unfold dispatch. rewrite Hcmd.
  split; intros Hsys.
  - apply Z.eqb_neq in Hsys. rewrite Hsys. reflexivity.
  - apply Z.eqb_eq in Hsys. rewrite Hsys. reflexivity.
Qed.

(** PROTECT_FROM_VPN by a caller that can protect, on a socket whose netId
    is not a virtual network: the netId stays, whether it was explicitly
    selected or not; the marker written has the protect bit set and the
    caller's permission added to the one it had. *)
Theorem protect_keeps_physical_network client rx fd family prior :
  wellFramed rx ->
  cmdId (command rx) = PROTECT_FROM_VPN ->
  gated rx fd family prior ->
  canProtect (mNetworkController this) (getUid client) = true ->
  isVirtualNetwork (mNetworkController this) (Fwmark.netId prior) = false ->
  trace (snd (processClient client rx)) =
    [Getsockopt fd SO_DOMAIN; Getsockopt fd SO_MARK;
     SetsockoptMark fd
       (Fwmark.mk (Fwmark.netId prior) (Fwmark.explicitlySelected prior) true
          (Z.lor (callerPermission client) (Fwmark.permission prior))
          (Fwmark.otherBits prior))].
Proof.
  intros Hfr Hcmd Hg Hcan Hphys.
  rewrite (processClient_gated client rx fd family prior Hfr);
    [| congruence | exact Hg].
  unfold dispatch. rewrite Hcmd, Hcan, Hphys, andb_false_r. reflexivity.
Qed.

(** ON_ACCEPT, past the gate, writes the marker it read with the caller's
    permission added: netId and both flags are those the kernel had set at
    accept time. *)
Theorem on_accept_adds_permission client rx fd family prior :
  wellFramed rx ->
  cmdId (command rx) = ON_ACCEPT ->
  gated rx fd family prior ->
  trace (snd (processClient client rx)) =
    [Getsockopt fd SO_DOMAIN; Getsockopt fd SO_MARK;
     SetsockoptMark fd
       (Fwmark.set_permission prior
          (Z.lor (callerPermission client) (Fwmark.permission prior)))].
Proof.
  intros Hfr Hcmd Hg.
  rewrite (processClient_gated client rx fd family prior Hfr);
    [| congruence | exact Hg].
  unfold dispatch. rewrite Hcmd. reflexivity.
Qed.

(** ON_CONNECT_COMPLETE, past the gate, reads the protocol of the socket and
    reports the connect to the listener - with the netId of the marker, the
    error and latency of the connect info and the caller's uid - exactly
    when that read succeeds, the protocol is not UDP and a listener is
    registered.  Reported or not, it then writes the marker it read with the
    caller's permission. *)
Theorem on_connect_complete_reports client rx fd family prior :
  wellFramed rx ->
  cmdId (command rx) = ON_CONNECT_COMPLETE ->
  gated rx fd family prior ->
  let ci := connectInfo rx in
  let reported :=
    match getsockopt_SO_PROTOCOL os fd with
    | Ok socketProto =>
        negb (socketProto =? IPPROTO_UDP) &&
        hasNetdEventListener (mEventReporter this)
    | Err _ => false
    end in
  let name :=
    match getnameinfo os (FwmarkConnectInfo.addr ci) with
    | Some (addrstr, portstr) => (addrstr, strtoul os portstr)
    | None => (EmptyString, 0)
    end in
  trace (snd (processClient client rx)) =
    [Getsockopt fd SO_DOMAIN; Getsockopt fd SO_MARK;
     Getsockopt fd SO_PROTOCOL] ++
    (if reported
     then [OnConnectEvent (Fwmark.netId prior)
             (FwmarkConnectInfo.error ci) (FwmarkConnectInfo.latencyMs ci)
             (fst name) (snd name) (getUid client)]
     else []) ++
    [SetsockoptMark fd (Fwmark.set_permission prior (callerPermission client))].
Proof.
  intros Hfr Hcmd Hg. cbv zeta.
  rewrite (processClient_gated client rx fd family prior Hfr);
    [| congruence | exact Hg].
  unfold dispatch. rewrite Hcmd. cbn.
  destruct (getsockopt_SO_PROTOCOL os fd) as [proto |]; cbn; [|reflexivity].
  destruct (proto =? IPPROTO_UDP); cbn; [reflexivity|].
  destruct (hasNetdEventListener (mEventReporter this)); cbn; [|reflexivity].
  destruct (getnameinfo os _) as [[addrstr portstr] |]; reflexivity.
Qed.

(** ** What every write keeps *)

(** What the [switch] leaves of the marker it was given. *)
Lemma dispatch_frame client c ci fd family prior p st locals st' :
  dispatch client c ci fd family prior p st = (Continue locals, st') ->
  Fwmark.otherBits (fst locals) = Fwmark.otherBits prior /\
  (cmdId c <> SELECT_NETWORK ->
   Fwmark.explicitlySelected (fst locals) = Fwmark.explicitlySelected prior /\
   (Fwmark.protectedFromVpn prior = true ->
    Fwmark.protectedFromVpn (fst locals) = true)).
Proof.
  unfold dispatch.
  destruct (cmdId c) eqn:Hc; cbn -[Z.land Z.lor]; split_ifs;
    intros H; try discriminate H; injection H as <- _;
    cbn -[Z.land Z.lor]; (split; [reflexivity|]); intros Hne;
    try contradiction; auto.
Qed.

(** The bits of the fwmark outside netId, permission and the two flags are
    written back as they were read, by every command that writes. *)
Theorem write_keeps_other_bits client rx fd family prior w :
  wellFramed rx ->
  gated rx fd family prior ->
  In w (markWrites (trace (snd (processClient client rx)))) ->
  Fwmark.otherBits w = Fwmark.otherBits prior.
Proof.
  intros Hfr Hg Hin.
  destruct (processClient_write_gated client rx w Hin) as (_ & Hq & _).
  destruct (processClient_written client rx fd family prior w Hfr Hq Hg Hin)
    as (locals & st & Hd & Hw & _ & _).
  destruct (dispatch_frame _ _ _ _ _ _ _ _ _ _ Hd) as [Hother _].
  subst w. exact Hother.
Qed.

(** Only SELECT_NETWORK sets or clears the explicit bit, and only
    SELECT_NETWORK clears the protect bit: every other command that writes
    keeps the explicit bit it read, and keeps a socket that is protected from
    VPN protected. *)
Theorem only_select_network_unselects client rx fd family prior w :
  wellFramed rx ->
  gated rx fd family prior ->
  In w (markWrites (trace (snd (processClient client rx)))) ->
  cmdId (command rx) <> SELECT_NETWORK ->
  Fwmark.explicitlySelected w = Fwmark.explicitlySelected prior /\
  (Fwmark.protectedFromVpn prior = true -> Fwmark.protectedFromVpn w = true).
Proof.
  intros Hfr Hg Hin Hne.
  destruct (processClient_write_gated client rx w Hin) as (_ & Hq & _).
  destruct (processClient_written client rx fd family prior w Hfr Hq Hg Hin)
    as (locals & st & Hd & Hw & _ & _).
  destruct (dispatch_frame _ _ _ _ _ _ _ _ _ _ Hd) as [_ Hflags].
  subst w. exact (Hflags Hne).
Qed.

(** Once the marker is written, the response is the outcome of that write:
    0 when the kernel accepts it, [-errno] when it does not. *)
Theorem status_of_a_write client rx fd family prior w :
  wellFramed rx ->
  gated rx fd family prior ->
  In w (markWrites (trace (snd (processClient client rx)))) ->
  fst (processClient client rx) =
  match setsockopt_SO_MARK os fd w with
  | Ok _ => 0
  | Err errno => - errno
  end.
Proof.
  intros Hfr Hg Hin.
  destruct (processClient_write_gated client rx w Hin) as (_ & Hq & _).
  destruct (processClient_written client rx fd family prior w Hfr Hq Hg Hin)
    as (locals & st & Hd & Hw & _ & _).
  rewrite (processClient_gated client rx fd family prior Hfr Hq Hg), Hd.
  subst w. reflexivity.
Qed.

(** ** The calls of a request *)

Lemma markWrites_In (tr : list Event) (w : Fwmark.t) :
  In w (markWrites tr) -> exists fd, In (SetsockoptMark fd w) tr.
Proof.
  induction tr as [| e tr IH]; cbn; [intros []|].
  destruct e; cbn; intros H;
    try (destruct (IH H) as (fd0 & Hfd); exists fd0; right; exact Hfd).
  destruct H as [<- | H].
  - eexists. left. reflexivity.
  - destruct (IH H) as (fd0 & Hfd). exists fd0. right. exact Hfd.
Qed.

Lemma closes_In (fds : list Z) (e : Event) :
  In e (map Close fds) -> exists fd, e = Close fd /\ In fd fds.
Proof.
  intros Hin. apply in_map_iff in Hin as (fd & <- & Hfd).
  exists fd. auto.
Qed.

(** Every call of a run is a call of its command, on the descriptor the run
    took; that descriptor is the one received.  A run that took none ends
    with the close of what the vector still owns, and made no call on a
    descriptor before. *)
Lemma processClient_calls client rx :
  let r := processClient client rx in
  Forall (engineCall client (command rx) (connectInfo rx) (socketFd (snd r)))
         (trace (snd r)) /\
  (socketFd (snd r) = -1 /\
   (exists calls,
      trace (snd r) = calls ++ map Close (ownedDescriptors rx) /\
      forall e, In e calls -> eventDescriptor e = None) /\
   ~ (wellFramed rx /\ cmdId (command rx) <> QUERY_USER_ACCESS /\
      exists fd, received_fds rx = [fd] /\ 0 <= fd) \/
   wellFramed rx /\ cmdId (command rx) <> QUERY_USER_ACCESS /\
   received_fds rx = [socketFd (snd r)] /\ 0 <= socketFd (snd r)).
Proof.
  cbv zeta.
  assert (Hcloses : Forall
            (engineCall client (command rx) (connectInfo rx) (-1))
            (map Close (ownedDescriptors rx))).
  { apply Forall_forall. intros e Hin.
    destruct (closes_In _ _ Hin) as (fd & -> & _). reflexivity. }
  destruct (processClient_cases client rx)
    as [(Hnot & Hst & _) |
        [(Hfr & Hcmd & Hr) |
         [(Hfr & Hq & Hno & Hr) | (Hfr & Hq & fd & Hfds & Hfd & Hr)]]].
  - rewrite Hst. cbn [trace socketFd]. split; [exact Hcloses|]. left.
    split; [reflexivity|]. split; [|tauto].
    exists []. split; [reflexivity | intros e []].
  - destruct Hr as [Hr | Hr]; rewrite Hr; cbn [fst snd trace socketFd].
    + split; [exact Hcloses|]. left.
      split; [reflexivity|]. split; [|tauto].
      exists []. split; [reflexivity | intros e []].
    + split.
      * constructor; [|exact Hcloses]. cbn. auto.
      * left. split; [reflexivity|]. split; [|tauto].
        eexists [_]. split; [reflexivity|].
        intros e [<- | []]; reflexivity.
  - rewrite Hr. split; [constructor|]. left.
    split; [reflexivity|]. split; [|tauto].
    exists []. rewrite (ownedDescriptors_none rx Hno).
    split; [reflexivity | intros e []].
  - assert (Hgate : forall opt, opt <> SO_PROTOCOL ->
              engineCall client (command rx) (connectInfo rx) fd
                (Getsockopt fd opt)).
    { intros opt Hopt. cbn. split; [reflexivity | intros E; contradiction]. }
    destruct Hr as [(errno & _ & Hr) |
                    [(family & _ & _ & Hr) |
                     [(family & errno & _ & _ & _ & Hr) |
                      (family & prior & Hg)]]];
      try (rewrite Hr; cbn [fst snd trace socketFd]; split;
           [repeat constructor; apply Hgate; discriminate | right; auto]).
    rewrite (processClient_gated client rx fd family prior Hfr Hq Hg).
    destruct (dispatch_calls client (command rx) (connectInfo rx) fd family
                prior (callerPermission client)
                (mkState fd [Getsockopt fd SO_DOMAIN; Getsockopt fd SO_MARK]))
      as (extra & Htr & Hextra).
    destruct (dispatch_trace client (command rx) (connectInfo rx) fd family
                prior (callerPermission client)
                (mkState fd [Getsockopt fd SO_DOMAIN; Getsockopt fd SO_MARK]))
      as (_ & _ & _ & Hsock).
    destruct (dispatch _ _ _ _ _ _ _ _) as [[locals | s] st] eqn:Hd;
      cbn [fst snd trace socketFd] in *; rewrite Hsock, Htr.
    + split; [|right; auto].
      apply Forall_app. split.
      * apply Forall_app. split; [|exact Hextra].
        repeat constructor; apply Hgate; discriminate.
      * constructor; [|constructor]. cbn. split; [reflexivity|].
        exact (dispatch_continue_cmd _ _ _ _ _ _ _ _ _ _ Hd).
    + split; [|right; auto].
      apply Forall_app. split; [|exact Hextra].
      repeat constructor; apply Hgate; discriminate.
Qed.

(** Every call of a run that works on a descriptor - socket option, tagger
    or close - works on the one valid descriptor that came with the message,
    never on the client's own socket or on any other descriptor.  The socket
    options and the tagger are used only in a run that hands that descriptor
    back in [*socketFd]; a close is the destructor's, in a run that does
    not. *)
Theorem calls_are_on_the_received_descriptor client rx e fd :
  In e (trace (snd (processClient client rx))) ->
  eventDescriptor e = Some fd ->
  received_fds rx = [fd] /\ 0 <= fd /\
  (socketFd (snd (processClient client rx)) = fd /\ e <> Close fd \/
   socketFd (snd (processClient client rx)) = -1 /\ e = Close fd).
Proof.
  intros Hin Hfd.
  destruct (processClient_calls client rx) as [Hall Hsock].
  rewrite Forall_forall in Hall. specialize (Hall e Hin).
  destruct Hsock
    as [(Hminus & (calls & Htr & Hnone) & _) | (_ & _ & Hfds & Hpos)].
  - rewrite Htr in Hin. apply in_app_or in Hin as [Hin | Hin].
    + rewrite (Hnone e Hin) in Hfd. discriminate.
    + destruct (closes_In _ _ Hin) as (f & -> & Hf).
      injection Hfd as <-.
      destruct (ownedDescriptors_cases rx)
        as [E | (f' & Hfds & Hpos & E)]; rewrite E in Hf.
      * destruct Hf.
      * destruct Hf as [<- | []]. auto.
  - destruct e; cbn in Hall, Hfd; try discriminate Hfd; try contradiction;
      injection Hfd as <-;
      try (decompose [and] Hall;
           match goal with E : _ = socketFd _ |- _ =>
             rewrite <- E in Hfds, Hpos end;
           split; [exact Hfds|]; split; [exact Hpos|];
           left; split; [congruence | discriminate]).
    lia.
Qed.

(** The access check is made for the uid named in the command only by
    QUERY_USER_ACCESS.  SELECT_NETWORK checks the caller's own uid, whatever
    uid the command carries, and only for a network other than NETID_UNSET.
    No other command makes the check, and it is always about the network of
    the command. *)
Theorem access_check_subject client rx u n :
  In (CheckUserNetworkAccess u n) (trace (snd (processClient client rx))) ->
  n = netId (command rx) /\
  ((cmdId (command rx) = QUERY_USER_ACCESS /\ u = uid (command rx)) \/
   (cmdId (command rx) = SELECT_NETWORK /\ u = getUid client /\
    n <> NETID_UNSET)).
Proof.
  intros Hin.
  destruct (processClient_calls client rx) as [Hall _].
  rewrite Forall_forall in Hall. exact (Hall _ Hin).
Qed.

(** The tagger is called only for TAG_SOCKET and UNTAG_SOCKET, and a run
    that calls it writes no marker. *)
Theorem tagging_writes_no_marker client rx e :
  In e (trace (snd (processClient client rx))) ->
  isTagEvent e = true ->
  (cmdId (command rx) = TAG_SOCKET \/ cmdId (command rx) = UNTAG_SOCKET) /\
  markWrites (trace (snd (processClient client rx))) = [].
Proof.
  intros Hin Htag.
  destruct (processClient_calls client rx) as [Hall _].
  rewrite Forall_forall in Hall.
  assert (Hcmd : cmdId (command rx) = TAG_SOCKET \/
                 cmdId (command rx) = UNTAG_SOCKET).
  { specialize (Hall e Hin).
    destruct e; cbn in Htag, Hall; try discriminate Htag; tauto. }
  split; [exact Hcmd|].
  destruct (markWrites (trace (snd (processClient client rx))))
    as [| w ws] eqn:Hws; [reflexivity|].
  exfalso.
  destruct (markWrites_In (trace (snd (processClient client rx))) w)
    as (f & Hf); [rewrite Hws; left; reflexivity|].
  destruct (Hall _ Hf) as (_ & Hbreak).
  unfold reachesWriteBack in Hbreak.
  destruct Hcmd as [E | E]; rewrite E in Hbreak;
    decompose [or] Hbreak; discriminate.
Qed.

(** Only ON_CONNECT_COMPLETE reports to the listener, and what it reports is
    the error and the latency of the connect info it received and the uid of
    the caller. *)
Theorem only_connect_complete_reports client rx n err lat a p u :
  In (OnConnectEvent n err lat a p u)
     (trace (snd (processClient client rx))) ->
  cmdId (command rx) = ON_CONNECT_COMPLETE /\
  err = FwmarkConnectInfo.error (connectInfo rx) /\
  lat = FwmarkConnectInfo.latencyMs (connectInfo rx) /\
  u = getUid client.
Proof.
  intros Hin.
  destruct (processClient_calls client rx) as [Hall _].
  rewrite Forall_forall in Hall. exact (Hall _ Hin).
Qed.

(** ** The connection *)


(** ** What a transition leaves for the next request *)

(** The marker PROTECT_FROM_VPN leaves of one that is not explicitly
    selected: protected, still not explicitly selected, and on the default
    network unless the netId it had was not a virtual network. *)
Lemma protect_locals client c ci fd family prior p st locals st' :
  cmdId c = PROTECT_FROM_VPN ->
  Fwmark.explicitlySelected prior = false ->
  dispatch client c ci fd family prior p st = (Continue locals, st') ->
  Fwmark.explicitlySelected (fst locals) = false /\
  Fwmark.protectedFromVpn (fst locals) = true /\
  (Fwmark.netId (fst locals) =
     Fwmark.netIdField (getDefaultNetwork (mNetworkController this)) \/
   (Fwmark.netId (fst locals) = Fwmark.netId prior /\
    isVirtualNetwork (mNetworkController this) (Fwmark.netId prior) = false)).
Proof.
  intros Hc Hexp. unfold dispatch. rewrite Hc, Hexp.
  destruct (canProtect _ _); cbn -[Z.lor]; intros H; [|discriminate H].
  injection H as <- _.
  destruct (isVirtualNetwork _ _) eqn:Hv; cbn; auto.
Qed.

(** The marker SELECT_NETWORK leaves: explicitly selected on the network
    asked for, or reset. *)
Lemma select_locals client c ci fd family prior p st locals st' :
  cmdId c = SELECT_NETWORK ->
  dispatch client c ci fd family prior p st = (Continue locals, st') ->
  Fwmark.netId (fst locals) = Fwmark.netIdField (netId c) /\
  (netId c <> NETID_UNSET -> Fwmark.explicitlySelected (fst locals) = true) /\
  (netId c = NETID_UNSET ->
   Fwmark.explicitlySelected (fst locals) = false /\
   Fwmark.protectedFromVpn (fst locals) = false).
Proof.
  intros Hc. unfold dispatch. rewrite Hc.
  destruct (netId c =? NETID_UNSET) eqn:Hnet; cbn.
  - apply Z.eqb_eq in Hnet. intros H. injection H as <- _. cbn.
    repeat split; intros; auto; contradiction.
  - apply Z.eqb_neq in Hnet.
    destruct (negb _); cbn; intros H; [discriminate H|].
    injection H as <- _. cbn. repeat split; intros; auto; contradiction.
Qed.

End Server.

(** * Examples

    The theorems above at concrete requests, and concrete requests on which
    stronger readings fail.  The descriptor received is 5, on an AF_INET
    socket unless said otherwise. *)

Import FwmarkCommand.

(** A message of 16 bytes for ON_CONNECT, which needs 52, is malformed; the
    descriptor 5 that came with it is closed. *)
Lemma framing_rejects_unexpected_length_witness :
  processClient Sample.sizeof_command Sample.sizeof_connectInfo
       Sample.isSupportedFamily Sample.PERMISSION_NONE Sample.PERMISSION_SYSTEM
    (Sample.kernel 2 Sample.fresh) (Sample.server (Sample.controller 0 false 100))
    Sample.client (Sample.request ON_CONNECT 0 0 16 [5])
  = (- EBADMSG, mkState (-1) [Close 5]).
Proof.
  destruct (framing_rejects_unexpected_length Sample.sizeof_command Sample.sizeof_connectInfo
       Sample.isSupportedFamily Sample.PERMISSION_NONE Sample.PERMISSION_SYSTEM
              (Sample.kernel 2 Sample.fresh)
              (Sample.server (Sample.controller 0 false 100))
              Sample.client (Sample.request ON_CONNECT 0 0 16 [5]))
    as (_ & _ & _ & _ & H).
  apply H; vm_compute; [reflexivity | discriminate].
Defined.

(** The scenario of the spec: a caller with PERMISSION_SYSTEM asks about uid
    1000 and network 100, sends no descriptor, and gets 0. *)
Lemma query_user_access_touches_no_socket_witness :
  processClient Sample.sizeof_command Sample.sizeof_connectInfo
       Sample.isSupportedFamily Sample.PERMISSION_NONE Sample.PERMISSION_SYSTEM
    (Sample.kernel 2 Sample.fresh) (Sample.server (Sample.controller 3 false 100))
    Sample.client (Sample.request QUERY_USER_ACCESS 100 1000 16 [])
  = (0, mkState (-1) [CheckUserNetworkAccess 1000 100]).
Proof.
  destruct (query_user_access_touches_no_socket Sample.sizeof_command Sample.sizeof_connectInfo
       Sample.isSupportedFamily Sample.PERMISSION_NONE Sample.PERMISSION_SYSTEM
              (Sample.kernel 2 Sample.fresh)
              (Sample.server (Sample.controller 3 false 100))
              Sample.client (Sample.request QUERY_USER_ACCESS 100 1000 16 []))
    as (_ & H & _).
  - split; vm_compute; reflexivity.
  - reflexivity.
  - apply H. reflexivity.
Defined.

(** The same query with the descriptor 5 attached: the descriptor is not
    looked at, and is closed on the return. *)
Lemma query_user_access_with_descriptor_example :
  processClient Sample.sizeof_command Sample.sizeof_connectInfo
       Sample.isSupportedFamily Sample.PERMISSION_NONE Sample.PERMISSION_SYSTEM
    (Sample.kernel 2 Sample.fresh) (Sample.server (Sample.controller 3 false 100))
    Sample.client (Sample.request QUERY_USER_ACCESS 100 1000 16 [5])
  = (0, mkState (-1) [CheckUserNetworkAccess 1000 100; Close 5]).
Proof. reflexivity. Qed.

(** UNTAG_SOCKET on a socket of family AF_UNIX (1) fails with EAFNOSUPPORT
    and the tagger is not called. *)
Lemma gate_precedes_dispatch_witness :
  processClient Sample.sizeof_command Sample.sizeof_connectInfo
       Sample.isSupportedFamily Sample.PERMISSION_NONE Sample.PERMISSION_SYSTEM
    (Sample.kernel 1 Sample.fresh) (Sample.server (Sample.controller 0 false 100))
    Sample.client (Sample.request UNTAG_SOCKET 0 0 16 [5])
  = (- EAFNOSUPPORT, mkState 5 [Getsockopt 5 SO_DOMAIN]).
Proof.
  destruct (gate_precedes_dispatch Sample.sizeof_command Sample.sizeof_connectInfo
       Sample.isSupportedFamily Sample.PERMISSION_NONE Sample.PERMISSION_SYSTEM
              (Sample.kernel 1 Sample.fresh)
              (Sample.server (Sample.controller 0 false 100))
              Sample.client (Sample.request UNTAG_SOCKET 0 0 16 [5]))
    as (_ & H).
  - split; vm_compute; reflexivity.
  - discriminate.
  - destruct (H 5 eq_refl) as (_ & Hfam); [lia|].
    destruct (Hfam 1 eq_refl) as (Hunsupported & _).
    destruct (Hunsupported eq_refl) as (Hr & _).
    exact Hr.
Defined.

(** The scenario of the spec: the marker \{7, explicit, protected, SYSTEM\}
    is reset and the response is 0. *)
Lemma select_network_unset_resets_witness :
  fst (processClient Sample.sizeof_command Sample.sizeof_connectInfo
       Sample.isSupportedFamily Sample.PERMISSION_NONE Sample.PERMISSION_SYSTEM
         (Sample.kernel 2 (Fwmark.mk 7 true true 3 0))
         (Sample.server (Sample.controller 0 false 100))
         Sample.client (Sample.request SELECT_NETWORK NETID_UNSET 0 16 [5]))
  = 0 /\
  trace
    (snd (processClient Sample.sizeof_command Sample.sizeof_connectInfo
       Sample.isSupportedFamily Sample.PERMISSION_NONE Sample.PERMISSION_SYSTEM
         (Sample.kernel 2 (Fwmark.mk 7 true true 3 0))
         (Sample.server (Sample.controller 0 false 100))
         Sample.client (Sample.request SELECT_NETWORK NETID_UNSET 0 16 [5])))
  = [Getsockopt 5 SO_DOMAIN; Getsockopt 5 SO_MARK;
     SetsockoptMark 5 (Fwmark.mk NETID_UNSET false false 0 0)].
Proof.
  destruct (select_network_unset_resets Sample.sizeof_command Sample.sizeof_connectInfo
       Sample.isSupportedFamily Sample.PERMISSION_NONE Sample.PERMISSION_SYSTEM
              (Sample.kernel 2 (Fwmark.mk 7 true true 3 0))
              (Sample.server (Sample.controller 0 false 100))
              Sample.client (Sample.request SELECT_NETWORK NETID_UNSET 0 16 [5])
              5 2 (Fwmark.mk 7 true true 3 0))
    as (Htr & _ & _ & _ & Hst).
  - split; vm_compute; reflexivity.
  - reflexivity.
  - reflexivity.
  - unfold gated. cbn. repeat split; (reflexivity || lia).
  - split; [exact (Hst tt eq_refl) | exact Htr].
Defined.

(** The caller may not use network 101: the status is -EACCES and the
    marker is not written. *)
Lemma select_network_denied_leaves_marker_witness :
  fst (processClient Sample.sizeof_command Sample.sizeof_connectInfo
       Sample.isSupportedFamily Sample.PERMISSION_NONE Sample.PERMISSION_SYSTEM
         (Sample.kernel 2 Sample.fresh)
         (Sample.server (Sample.controller 0 false 100))
         Sample.client (Sample.request SELECT_NETWORK 101 0 16 [5]))
  = - Sample.EACCES /\
  markWrites
    (trace (snd (processClient Sample.sizeof_command Sample.sizeof_connectInfo
       Sample.isSupportedFamily Sample.PERMISSION_NONE Sample.PERMISSION_SYSTEM
         (Sample.kernel 2 Sample.fresh)
         (Sample.server (Sample.controller 0 false 100))
         Sample.client (Sample.request SELECT_NETWORK 101 0 16 [5]))))
  = [].
Proof.
  destruct (select_network_denied_leaves_marker Sample.sizeof_command Sample.sizeof_connectInfo
       Sample.isSupportedFamily Sample.PERMISSION_NONE Sample.PERMISSION_SYSTEM
              (Sample.kernel 2 Sample.fresh)
              (Sample.server (Sample.controller 0 false 100))
              Sample.client (Sample.request SELECT_NETWORK 101 0 16 [5])
              5 2 Sample.fresh)
    as (Hst & Hno & _).
  - split; vm_compute; reflexivity.
  - reflexivity.
  - discriminate.
  - unfold gated. cbn. repeat split; (reflexivity || lia).
  - discriminate.
  - split; [exact Hst | exact Hno].
Defined.

(** A caller that can protect, on a socket that ON_CONNECT had put on the
    VPN 200: the marker written is protected and on the default network. *)
Lemma protect_from_vpn_transition_witness :
  exists w,
    markWrites
      (trace (snd (processClient Sample.sizeof_command Sample.sizeof_connectInfo
       Sample.isSupportedFamily Sample.PERMISSION_NONE Sample.PERMISSION_SYSTEM
         (Sample.kernel 2 (Fwmark.mk 200 false false 0 0))
         (Sample.server (Sample.controller 0 true 200))
         Sample.client (Sample.request PROTECT_FROM_VPN 0 0 16 [5]))))
    = [w] /\
    Fwmark.protectedFromVpn w = true /\
    Fwmark.netId w = 100.
Proof.
  destruct (protect_from_vpn_transition Sample.sizeof_command Sample.sizeof_connectInfo
       Sample.isSupportedFamily Sample.PERMISSION_NONE Sample.PERMISSION_SYSTEM
              (Sample.kernel 2 (Fwmark.mk 200 false false 0 0))
              (Sample.server (Sample.controller 0 true 200))
              Sample.client (Sample.request PROTECT_FROM_VPN 0 0 16 [5])
              5 2 (Fwmark.mk 200 false false 0 0))
    as (_ & H).
  - split; vm_compute; reflexivity.
  - reflexivity.
  - unfold gated. cbn. repeat split; (reflexivity || lia).
  - destruct (H eq_refl) as (w & Hw & Hprot & Hvirtual & _).
    destruct (Hvirtual eq_refl eq_refl) as (_ & Hnet).
    exists w. repeat split; [exact Hw | exact Hprot |].
    apply Hnet. unfold Fwmark.validNetId. cbn. lia.
Defined.

Lemma sample_netIdsFit perm protect :
  netIdsFit (Sample.controller perm protect 100).
Proof.
  unfold netIdsFit, Fwmark.validNetId, NETID_UNSET. cbn.
  split; [| repeat split; lia].
  intros ifindex. unfold NETID_UNSET. destruct (ifindex =? 3); lia.
Qed.

(** A fresh AF_INET6 socket connects to fe80::1 on interface 3: the marker
    written names network 101, the network of that interface. *)
Lemma on_connect_chooses_netId_witness :
  exists w,
    markWrites
      (trace (snd (processClient Sample.sizeof_command Sample.sizeof_connectInfo
       Sample.isSupportedFamily Sample.PERMISSION_NONE Sample.PERMISSION_SYSTEM
         (Sample.kernel 10 Sample.fresh)
         (Sample.server (Sample.controller 0 false 100))
         Sample.client
         (Sample.connectRequest ON_CONNECT Sample.linkLocalInfo [5]))))
    = [w] /\
    Fwmark.netId w = 101.
Proof.
  destruct (on_connect_chooses_netId Sample.sizeof_command Sample.sizeof_connectInfo
       Sample.isSupportedFamily Sample.PERMISSION_NONE Sample.PERMISSION_SYSTEM
              (Sample.kernel 10 Sample.fresh)
              (Sample.server (Sample.controller 0 false 100))
              Sample.client
              (Sample.connectRequest ON_CONNECT Sample.linkLocalInfo [5])
              5 10 Sample.fresh)
    as (w & Hw & Hlink & _).
  - split; vm_compute; reflexivity.
  - reflexivity.
  - unfold gated. cbn. repeat split; (reflexivity || lia).
  - reflexivity.
  - apply sample_netIdsFit.
  - exists w. split; [exact Hw|].
    apply Hlink. split; [reflexivity | split; [discriminate | reflexivity]].
Defined.

(** An explicitly selected socket on network 100 whose marker carries
    PERMISSION_NETWORK, and a caller with PERMISSION_NONE: netId and flags
    stay, the permission becomes NONE. *)
Lemma on_connect_explicit_keeps_selection_witness :
  trace
    (snd (processClient Sample.sizeof_command Sample.sizeof_connectInfo
       Sample.isSupportedFamily Sample.PERMISSION_NONE Sample.PERMISSION_SYSTEM
       (Sample.kernel 2 (Fwmark.mk 100 true false 1 0))
       (Sample.server (Sample.controller 0 false 100))
       Sample.client
       (Sample.connectRequest ON_CONNECT Sample.noConnectInfo [5])))
  = [Getsockopt 5 SO_DOMAIN; Getsockopt 5 SO_MARK;
     SetsockoptMark 5 (Fwmark.mk 100 true false 0 0)].
Proof.
  destruct (on_connect_explicit_keeps_selection Sample.sizeof_command Sample.sizeof_connectInfo
       Sample.isSupportedFamily Sample.PERMISSION_NONE Sample.PERMISSION_SYSTEM
              (Sample.kernel 2 (Fwmark.mk 100 true false 1 0))
              (Sample.server (Sample.controller 0 false 100))
              Sample.client
              (Sample.connectRequest ON_CONNECT Sample.noConnectInfo [5])
              5 2 (Fwmark.mk 100 true false 1 0))
    as (Htr & _).
  - split; vm_compute; reflexivity.
  - reflexivity.
  - unfold gated. cbn. repeat split; (reflexivity || lia).
  - reflexivity.
  - exact Htr.
Defined.

(** C3 as stated fails: on that request the marker written differs from the
    marker read, in the permission. *)
Lemma on_connect_explicit_counterexample :
  markWrites
    (trace (snd (processClient Sample.sizeof_command Sample.sizeof_connectInfo
       Sample.isSupportedFamily Sample.PERMISSION_NONE Sample.PERMISSION_SYSTEM
       (Sample.kernel 2 (Fwmark.mk 100 true false 1 0))
       (Sample.server (Sample.controller 0 false 100))
       Sample.client
       (Sample.connectRequest ON_CONNECT Sample.noConnectInfo [5]))))
  = [Fwmark.mk 100 true false 0 0] /\
  Fwmark.mk 100 true false 0 0 <> Fwmark.mk 100 true false 1 0.
Proof. split; [reflexivity | discriminate]. Qed.

(** ON_ACCEPT by a caller with PERMISSION_SYSTEM on a socket whose marker
    carries PERMISSION_NETWORK: the permission written is the OR of both. *)
Lemma permission_written_witness :
  Fwmark.permission (Fwmark.mk 100 false false 3 0) = Z.lor 3 1 /\
  Z.land 1 (Fwmark.permission (Fwmark.mk 100 false false 3 0)) = 1.
Proof.
  destruct (permission_written Sample.sizeof_command Sample.sizeof_connectInfo
       Sample.isSupportedFamily Sample.PERMISSION_NONE Sample.PERMISSION_SYSTEM
              (Sample.kernel 2 (Fwmark.mk 100 false false 1 0))
              (Sample.server (Sample.controller 3 false 100))
              Sample.client (Sample.request ON_ACCEPT 0 0 16 [5])
              5 2 (Fwmark.mk 100 false false 1 0)
              (Fwmark.mk 100 false false 3 0))
    as (Hor & _).
  - split; vm_compute; reflexivity.
  - unfold gated. cbn. repeat split; (reflexivity || lia).
  - vm_compute. left. reflexivity.
  - apply Hor. left. reflexivity.
Defined.

(** C4 as stated fails: ON_CONNECT by a caller with PERMISSION_NONE on a
    socket whose marker carries PERMISSION_SYSTEM writes permission NONE, so
    the bits of the permission read are gone. *)
Lemma on_connect_permission_counterexample :
  markWrites
    (trace (snd (processClient Sample.sizeof_command Sample.sizeof_connectInfo
       Sample.isSupportedFamily Sample.PERMISSION_NONE Sample.PERMISSION_SYSTEM
       (Sample.kernel 2 (Fwmark.mk 100 false false 3 0))
       (Sample.server (Sample.controller 0 false 100))
       Sample.client
       (Sample.connectRequest ON_CONNECT Sample.noConnectInfo [5]))))
  = [Fwmark.mk 100 false false 0 0] /\
  Z.land (Fwmark.permission (Fwmark.mk 100 false false 3 0))
         (Fwmark.permission (Fwmark.mk 100 false false 0 0))
  <> Fwmark.permission (Fwmark.mk 100 false false 3 0).
Proof. split; [reflexivity | discriminate]. Qed.

(** The reset of the spec's scenario satisfies the implication. *)
Lemma marker_written_once_and_whole_witness :
  Fwmark.explicitlySelected (Fwmark.mk NETID_UNSET false false 0 0) = false /\
  Fwmark.protectedFromVpn (Fwmark.mk NETID_UNSET false false 0 0) = false /\
  Fwmark.permission (Fwmark.mk NETID_UNSET false false 0 0)
  = Sample.PERMISSION_NONE.
Proof.
  destruct (marker_written_once_and_whole Sample.sizeof_command Sample.sizeof_connectInfo
       Sample.isSupportedFamily Sample.PERMISSION_NONE Sample.PERMISSION_SYSTEM
              (Sample.kernel 2 (Fwmark.mk 7 true true 3 0))
              (Sample.server (Sample.controller 0 false 100))
              Sample.client
              (Sample.request SELECT_NETWORK NETID_UNSET 0 16 [5]))
    as (_ & _ & _ & H).
  apply H.
  - vm_compute. left. reflexivity.
  - reflexivity.
  - unfold Fwmark.validNetId. cbn. unfold NETID_UNSET. lia.
  - reflexivity.
Defined.

(** C1 as stated fails: PROTECT_FROM_VPN, by a caller that can protect, on a
    fresh socket returns 0 and writes a marker whose netId is unset and
    whose protectedFromVpn is true. *)
Lemma protect_fresh_socket_counterexample :
  processClient Sample.sizeof_command Sample.sizeof_connectInfo
       Sample.isSupportedFamily Sample.PERMISSION_NONE Sample.PERMISSION_SYSTEM
    (Sample.kernel 2 Sample.fresh)
    (Sample.server (Sample.controller 0 true 100))
    Sample.client (Sample.request PROTECT_FROM_VPN 0 0 16 [5])
  = (0, mkState 5 [Getsockopt 5 SO_DOMAIN; Getsockopt 5 SO_MARK;
                   SetsockoptMark 5 (Fwmark.mk NETID_UNSET false true 0 0)]) /\
  Fwmark.netId (Fwmark.mk NETID_UNSET false true 0 0) = NETID_UNSET /\
  Fwmark.protectedFromVpn (Fwmark.mk NETID_UNSET false true 0 0) <> false.
Proof. repeat split. discriminate. Qed.

(** The same happens with the permission: ON_ACCEPT and ON_CONNECT_COMPLETE
    by a caller with PERMISSION_NETWORK on a fresh socket, and ON_CONNECT
    when there is no network to connect over, write the unset netId with
    permission NETWORK; SELECT_FOR_USER for a user without a network writes
    it with protectedFromVpn set. *)
Lemma on_accept_fresh_socket_example :
  markWrites
    (trace (snd (processClient Sample.sizeof_command Sample.sizeof_connectInfo
       Sample.isSupportedFamily Sample.PERMISSION_NONE Sample.PERMISSION_SYSTEM
       (Sample.kernel 2 Sample.fresh)
       (Sample.server (Sample.controller 1 false 100))
       Sample.client (Sample.request ON_ACCEPT 0 0 16 [5]))))
  = [Fwmark.mk NETID_UNSET false false 1 0].
Proof. reflexivity. Qed.

Lemma on_connect_complete_fresh_socket_example :
  markWrites
    (trace (snd (processClient Sample.sizeof_command Sample.sizeof_connectInfo
       Sample.isSupportedFamily Sample.PERMISSION_NONE Sample.PERMISSION_SYSTEM
       (Sample.kernel 2 Sample.fresh)
       (Sample.server (Sample.controller 1 false 100))
       Sample.client
       (Sample.connectRequest ON_CONNECT_COMPLETE Sample.noConnectInfo [5]))))
  = [Fwmark.mk NETID_UNSET false false 1 0].
Proof. reflexivity. Qed.

Lemma on_connect_no_network_example :
  markWrites
    (trace (snd (processClient Sample.sizeof_command Sample.sizeof_connectInfo
       Sample.isSupportedFamily Sample.PERMISSION_NONE Sample.PERMISSION_SYSTEM
       (Sample.kernel 2 Sample.fresh)
       (Sample.server (Sample.controller 1 false NETID_UNSET))
       Sample.client
       (Sample.connectRequest ON_CONNECT Sample.noConnectInfo [5]))))
  = [Fwmark.mk NETID_UNSET false false 1 0].
Proof. reflexivity. Qed.

Lemma select_for_user_no_network_example :
  markWrites
    (trace (snd (processClient Sample.sizeof_command Sample.sizeof_connectInfo
       Sample.isSupportedFamily Sample.PERMISSION_NONE Sample.PERMISSION_SYSTEM
       (Sample.kernel 2 Sample.fresh)
       (Sample.server (Sample.controller 3 false NETID_UNSET))
       Sample.client (Sample.request SELECT_FOR_USER 0 1000 16 [5]))))
  = [Fwmark.mk NETID_UNSET false true 3 0].
Proof. reflexivity. Qed.

(** The netId field keeps the low 16 bits: a SELECT_NETWORK for 65536 that
    the controller lets pass writes the unset netId as explicitly
    selected. *)
Lemma select_network_narrowing_example :
  markWrites
    (trace (snd (processClient Sample.sizeof_command Sample.sizeof_connectInfo
       Sample.isSupportedFamily Sample.PERMISSION_NONE Sample.PERMISSION_SYSTEM
       (Sample.kernel 2 Sample.fresh)
       (Sample.server (Sample.controller 0 false 100))
       Sample.client (Sample.request SELECT_NETWORK 65536 0 16 [5]))))
  = [Fwmark.mk NETID_UNSET true false 0 0].
Proof. reflexivity. Qed.

(** * Requests in sequence

    The marker one request writes is the marker the next request on that
    socket reads.  The two requests may come from different clients and see
    different answers of the kernel; the server is the same. *)

Section Sequences.

Variable sizeof_command : Z.
Variable sizeof_connectInfo : Z.
Variable isSupportedFamily : Z -> bool.
Variable PERMISSION_NONE : Z.
Variable PERMISSION_SYSTEM : Z.
Variable this : FwmarkServer.

Local Abbreviation run :=
  (processClient sizeof_command sizeof_connectInfo isSupportedFamily
     PERMISSION_NONE PERMISSION_SYSTEM).
Local Abbreviation framed := (wellFramed sizeof_command sizeof_connectInfo this).
Local Abbreviation passes := (gated isSupportedFamily).
Local Abbreviation switch := (dispatch PERMISSION_NONE PERMISSION_SYSTEM).

Ltac case_conditions :=
  repeat match goal with
    | |- context [if ?b then _ else _] => destruct b eqn:?; cbn -[Z.land Z.lor]
    | |- context [when ?b _] => destruct b eqn:?; cbn -[Z.land Z.lor]
    | |- context [match getsockopt_SO_PROTOCOL ?o ?f with _ => _ end] =>
        destruct (getsockopt_SO_PROTOCOL o f); cbn -[Z.land Z.lor]
    | |- context [match getnameinfo ?o ?a with _ => _ end] =>
        destruct (getnameinfo o a) as [[? ?] |]; cbn -[Z.land Z.lor]
    end.

Lemma lor_again (p q : Z) : Z.lor p (Z.lor p q) = Z.lor p q.
Proof. rewrite Z.lor_assoc, Z.lor_diag. reflexivity. Qed.

(** The [switch], given the marker it has just produced, produces it
    again. *)
Lemma dispatch_again os1 os2 client c ci fd family prior p st1 st2 :
  match switch os1 this client c ci fd family prior p st1 with
  | (Continue locals, _) =>
      exists locals' st2',
        switch os2 this client c ci fd family
          (Fwmark.set_permission (fst locals) (snd locals)) p st2 =
        (Continue locals', st2') /\
        Fwmark.set_permission (fst locals') (snd locals') =
        Fwmark.set_permission (fst locals) (snd locals)
  | (Return _, _) => True
  end.
Proof.
  unfold dispatch.
  destruct prior as [n [|] [|] q rest];
    destruct (FwmarkCommand.cmdId c); cbn -[Z.land Z.lor]; case_conditions;
    try exact I; cbn -[Z.land Z.lor] in *; try congruence;
    eexists; eexists; (split; [reflexivity|]);
    cbn -[Z.land Z.lor]; rewrite ?lor_again; reflexivity.
Qed.

(** What the write-back of a run that left the [switch] adds to the
    trace. *)
Lemma written_after_switch os client rx fd family prior locals st :
  framed rx ->
  FwmarkCommand.cmdId (command rx) <> FwmarkCommand.QUERY_USER_ACCESS ->
  passes os rx fd family prior ->
  switch os this client (command rx) (connectInfo rx) fd family prior
    (callerPermission this client)
    (mkState fd [Getsockopt fd SO_DOMAIN; Getsockopt fd SO_MARK]) =
  (Continue locals, st) ->
  markWrites (trace (snd (run os this client rx))) =
  [Fwmark.set_permission (fst locals) (snd locals)].
Proof.
  intros Hfr Hq Hg Hd.
  rewrite (processClient_gated _ _ _ _ _ _ _ _ _ _ _ _ Hfr Hq Hg), Hd.
  destruct (dispatch_trace PERMISSION_NONE PERMISSION_SYSTEM os this client
              (command rx) (connectInfo rx) fd family prior
              (callerPermission this client)
              (mkState fd [Getsockopt fd SO_DOMAIN; Getsockopt fd SO_MARK]))
    as (extra & Htr & Hextra & _).
  rewrite Hd in Htr. cbn [snd trace] in *.
  rewrite markWrites_app, Htr, markWrites_app, Hextra. reflexivity.
Qed.

(** A request is idempotent on the marker: when the marker it wrote is the
    marker read, the same request from the same client writes that marker
    again. *)
Theorem repeated_request_writes_same_marker
    os1 os2 client rx fd family prior w :
  framed rx ->
  passes os1 rx fd family prior ->
  In w (markWrites (trace (snd (run os1 this client rx)))) ->
  passes os2 rx fd family w ->
  markWrites (trace (snd (run os2 this client rx))) = [w].
Proof.
  intros Hfr Hg1 Hin Hg2.
  destruct (processClient_write_gated _ _ _ _ _ _ _ _ _ _ Hin)
    as (_ & Hq & _).
  destruct (processClient_written _ _ _ _ _ _ _ _ _ _ _ _ _ Hfr Hq Hg1 Hin)
    as (locals & st & Hd & Hw & _ & _).
  pose proof (dispatch_again os1 os2 client (command rx) (connectInfo rx) fd
                family prior (callerPermission this client)
                (mkState fd [Getsockopt fd SO_DOMAIN; Getsockopt fd SO_MARK])
                (mkState fd [Getsockopt fd SO_DOMAIN; Getsockopt fd SO_MARK]))
    as Hagain.
  rewrite Hd in Hagain. destruct Hagain as (locals' & st2 & Hd2 & Hsame).
  rewrite <- Hw in Hd2, Hsame.
  rewrite (written_after_switch os2 client rx fd family w locals' st2
             Hfr Hq Hg2 Hd2).
  rewrite Hsame. reflexivity.
Qed.

(** A socket that PROTECT_FROM_VPN has written, and that was not explicitly
    selected, is put on the default network by the next ON_CONNECT to a
    destination that is not link-local, whatever netId it carried before -
    provided the default network is not a virtual one.  So a VPN provider
    that connects, protects and connects again ends on the default network,
    as the comments of ON_CONNECT require. *)
Theorem protect_then_connect_uses_default
    os1 os2 client1 client2 rx1 rx2 fd1 fd2 family1 family2 prior w1 :
  framed rx1 ->
  FwmarkCommand.cmdId (command rx1) = FwmarkCommand.PROTECT_FROM_VPN ->
  passes os1 rx1 fd1 family1 prior ->
  Fwmark.explicitlySelected prior = false ->
  In w1 (markWrites (trace (snd (run os1 this client1 rx1)))) ->
  framed rx2 ->
  FwmarkCommand.cmdId (command rx2) = FwmarkCommand.ON_CONNECT ->
  passes os2 rx2 fd2 family2 w1 ->
  ~ (family2 = AF_INET6 /\
     FwmarkConnectInfo.sin6_scope_id
       (FwmarkConnectInfo.addr (connectInfo rx2)) <> 0 /\
     IN6_IS_ADDR_LINKLOCAL
       (FwmarkConnectInfo.sin6_addr
          (FwmarkConnectInfo.addr (connectInfo rx2))) = true) ->
  Fwmark.validNetId (getDefaultNetwork (mNetworkController this)) ->
  isVirtualNetwork (mNetworkController this)
    (getDefaultNetwork (mNetworkController this)) = false ->
  exists w2,
    markWrites (trace (snd (run os2 this client2 rx2))) = [w2] /\
    Fwmark.netId w2 = getDefaultNetwork (mNetworkController this) /\
    Fwmark.protectedFromVpn w2 = true /\
    Fwmark.explicitlySelected w2 = false.
Proof.
  intros Hfr1 Hc1 Hg1 Hexp Hin Hfr2 Hc2 Hg2 Hnl Hvalid Hphys.
  assert (Hq1 : FwmarkCommand.cmdId (command rx1)
                <> FwmarkCommand.QUERY_USER_ACCESS) by congruence.
  assert (Hq2 : FwmarkCommand.cmdId (command rx2)
                <> FwmarkCommand.QUERY_USER_ACCESS) by congruence.
  destruct (processClient_written _ _ _ _ _ _ _ _ _ _ _ _ _
              Hfr1 Hq1 Hg1 Hin)
    as (locals & st & Hd & Hw & _ & _).
  destruct (protect_locals _ _ _ _ _ _ _ _ _ _ _ _ _ _ Hc1 Hexp Hd)
    as (He1 & Hp1 & Hn1).
  assert (He : Fwmark.explicitlySelected w1 = false) by (subst w1; exact He1).
  assert (Hp : Fwmark.protectedFromVpn w1 = true) by (subst w1; exact Hp1).
  assert (Hv : isVirtualNetwork (mNetworkController this) (Fwmark.netId w1)
               = false).
  { subst w1. cbn [Fwmark.netId Fwmark.set_permission].
    destruct Hn1 as [E | [E Hv]]; rewrite E; [|exact Hv].
    rewrite (netIdField_valid _ Hvalid). exact Hphys. }
  destruct (on_connect_stores_netId sizeof_command sizeof_connectInfo
              isSupportedFamily PERMISSION_NONE PERMISSION_SYSTEM
              os2 this client2 rx2 fd2
              family2 w1 Hfr2 Hc2 Hg2 He)
    as (w2 & Htr & _ & _ & Hdef & _).
  exists w2. rewrite Htr. split; [reflexivity|].
  split; [rewrite (Hdef Hnl Hp Hv); apply netIdField_valid, Hvalid|].
  assert (Hin2 : In w2 (markWrites (trace (snd (run os2 this client2 rx2)))))
    by (rewrite Htr; left; reflexivity).
  destruct (processClient_written _ _ _ _ _ _ _ _ _ _ _ _ _
              Hfr2 Hq2 Hg2 Hin2)
    as (locals2 & st2 & Hd2 & Hw2 & _ & _).
  destruct (dispatch_frame _ _ _ _ _ _ _ _ _ _ _ _ _ _ Hd2) as (_ & Hflags).
  destruct Hflags as (He2 & Hp2); [congruence|].
  subst w2. cbn [Fwmark.protectedFromVpn Fwmark.explicitlySelected
                 Fwmark.set_permission].
  split; [exact (Hp2 Hp) | congruence].
Qed.

(** A network selected with SELECT_NETWORK survives the connects that
    follow: the next ON_CONNECT, whoever sends it and wherever it goes,
    writes the selected netId back, still explicitly selected. *)
Theorem select_then_connect_keeps_network
    os1 os2 client1 client2 rx1 rx2 fd1 fd2 family1 family2 prior w1 :
  framed rx1 ->
  FwmarkCommand.cmdId (command rx1) = FwmarkCommand.SELECT_NETWORK ->
  FwmarkCommand.netId (command rx1) <> NETID_UNSET ->
  Fwmark.validNetId (FwmarkCommand.netId (command rx1)) ->
  passes os1 rx1 fd1 family1 prior ->
  In w1 (markWrites (trace (snd (run os1 this client1 rx1)))) ->
  framed rx2 ->
  FwmarkCommand.cmdId (command rx2) = FwmarkCommand.ON_CONNECT ->
  passes os2 rx2 fd2 family2 w1 ->
  exists w2,
    markWrites (trace (snd (run os2 this client2 rx2))) = [w2] /\
    Fwmark.netId w2 = FwmarkCommand.netId (command rx1) /\
    Fwmark.explicitlySelected w2 = true.
Proof.
  intros Hfr1 Hc1 Hnet Hvalid Hg1 Hin Hfr2 Hc2 Hg2.
  assert (Hq1 : FwmarkCommand.cmdId (command rx1)
                <> FwmarkCommand.QUERY_USER_ACCESS) by congruence.
  assert (Hq2 : FwmarkCommand.cmdId (command rx2)
                <> FwmarkCommand.QUERY_USER_ACCESS) by congruence.
  destruct (processClient_written _ _ _ _ _ _ _ _ _ _ _ _ _
              Hfr1 Hq1 Hg1 Hin)
    as (locals & st & Hd & Hw & _ & _).
  destruct (select_locals _ _ _ _ _ _ _ _ _ _ _ _ _ _ Hc1 Hd)
    as (Hn1 & He1 & _).
  assert (He : Fwmark.explicitlySelected w1 = true)
    by (subst w1; exact (He1 Hnet)).
  assert (Hn : Fwmark.netId w1 = FwmarkCommand.netId (command rx1)).
  { subst w1. cbn [Fwmark.netId Fwmark.set_permission].
    rewrite Hn1. apply netIdField_valid, Hvalid. }
  assert (Hd2 : switch os2 this client2 (command rx2) (connectInfo rx2) fd2
                  family2 w1 (callerPermission this client2)
                  (mkState fd2 [Getsockopt fd2 SO_DOMAIN;
                                Getsockopt fd2 SO_MARK]) =
                (Continue (w1, callerPermission this client2),
                 mkState fd2 [Getsockopt fd2 SO_DOMAIN;
                              Getsockopt fd2 SO_MARK])).
  { unfold dispatch. rewrite Hc2, He. reflexivity. }
  eexists.
  split; [exact (written_after_switch os2 client2 rx2 fd2 family2 w1 _ _
                   Hfr2 Hq2 Hg2 Hd2)|].
  cbn [fst snd Fwmark.netId Fwmark.explicitlySelected Fwmark.set_permission].
  auto.
Qed.

(** After the reset - SELECT_NETWORK with NETID_UNSET - the socket is chosen
    for afresh: the next ON_CONNECT to a destination that is not link-local
    writes the network for connect of its caller. *)
Theorem reset_then_connect_chooses_afresh
    os1 os2 client1 client2 rx1 rx2 fd1 fd2 family1 family2 prior w1 :
  framed rx1 ->
  FwmarkCommand.cmdId (command rx1) = FwmarkCommand.SELECT_NETWORK ->
  FwmarkCommand.netId (command rx1) = NETID_UNSET ->
  passes os1 rx1 fd1 family1 prior ->
  In w1 (markWrites (trace (snd (run os1 this client1 rx1)))) ->
  framed rx2 ->
  FwmarkCommand.cmdId (command rx2) = FwmarkCommand.ON_CONNECT ->
  passes os2 rx2 fd2 family2 w1 ->
  ~ (family2 = AF_INET6 /\
     FwmarkConnectInfo.sin6_scope_id
       (FwmarkConnectInfo.addr (connectInfo rx2)) <> 0 /\
     IN6_IS_ADDR_LINKLOCAL
       (FwmarkConnectInfo.sin6_addr
          (FwmarkConnectInfo.addr (connectInfo rx2))) = true) ->
  Fwmark.validNetId
    (getNetworkForConnect (mNetworkController this) (getUid client2)) ->
  exists w2,
    markWrites (trace (snd (run os2 this client2 rx2))) = [w2] /\
    Fwmark.netId w2 =
    getNetworkForConnect (mNetworkController this) (getUid client2).
Proof.
  intros Hfr1 Hc1 Hnet Hg1 Hin Hfr2 Hc2 Hg2 Hnl Hvalid.
  assert (Hq1 : FwmarkCommand.cmdId (command rx1)
                <> FwmarkCommand.QUERY_USER_ACCESS) by congruence.
  destruct (processClient_written _ _ _ _ _ _ _ _ _ _ _ _ _
              Hfr1 Hq1 Hg1 Hin)
    as (locals & st & Hd & Hw & _ & _).
  destruct (select_locals _ _ _ _ _ _ _ _ _ _ _ _ _ _ Hc1 Hd)
    as (_ & _ & Hreset).
  destruct (Hreset Hnet) as (He1 & Hp1).
  assert (He : Fwmark.explicitlySelected w1 = false) by (subst w1; exact He1).
  assert (Hp : Fwmark.protectedFromVpn w1 = false) by (subst w1; exact Hp1).
  destruct (on_connect_stores_netId sizeof_command sizeof_connectInfo
              isSupportedFamily PERMISSION_NONE PERMISSION_SYSTEM
              os2 this client2 rx2 fd2
              family2 w1 Hfr2 Hc2 Hg2 He)
    as (w2 & Htr & _ & Hconn & _).
  exists w2. rewrite Htr. split; [reflexivity|].
  rewrite (Hconn Hnl Hp). apply netIdField_valid, Hvalid.
Qed.

End Sequences.

(** * The system server check *)

(** [isSystemServer] holds exactly of a client with the system uid whose
    peer context is the context of the system server.  For any other uid
    the context is not even fetched.  A context that was fetched is freed,
    whatever the comparison said, and nothing else is freed. *)
Theorem isSystemServer_spec AID_SYSTEM getpeercon client :
  let r := isSystemServer AID_SYSTEM getpeercon client in
  (fst r = true <->
   getUid client = AID_SYSTEM /\
   getpeercon (getSocket client) = Some SYSTEM_SERVER_CONTEXT) /\
  (getUid client <> AID_SYSTEM -> r = (false, [])) /\
  (forall context,
     In (Freecon context) (snd r) <->
     getUid client = AID_SYSTEM /\
     getpeercon (getSocket client) = Some context).
Proof.
  cbv zeta. unfold isSystemServer.
  destruct (getUid client =? AID_SYSTEM) eqn:Huid; cbn [negb].
  - apply Z.eqb_eq in Huid.
    destruct (getpeercon (getSocket client)) as [context |];
      cbn [fst snd]; (split; [split|split]).
    + intros E. apply String.eqb_eq in E. subst context. auto.
    + intros (_ & E). injection E as ->. apply String.eqb_refl.
    + intros Hne. contradiction.
    + intros c. split.
      * intros [H | [H | []]]; [discriminate H|].
        injection H as ->. auto.
      * intros (_ & E). injection E as ->. right. left. reflexivity.
    + discriminate.
    + intros (_ & E). discriminate E.
    + intros Hne. contradiction.
    + intros c. split.
      * intros [H | []]. discriminate H.
      * intros (_ & E). discriminate E.
  - apply Z.eqb_neq in Huid. cbn [fst snd]. split; [split|split].
    + discriminate.
    + intros (E & _). contradiction.
    + reflexivity.
    + intros c. split; [intros [] | intros (E & _); contradiction].
Qed.

(** * Examples for the rest of the request *)

(** A receive that failed with ECONNRESET: the status is -104 and nothing
    was done. *)
Lemma unframed_message_is_dropped_witness :
  fst (processClient Sample.sizeof_command Sample.sizeof_connectInfo
       Sample.isSupportedFamily Sample.PERMISSION_NONE Sample.PERMISSION_SYSTEM
         (Sample.kernel 2 Sample.fresh)
         (Sample.server (Sample.controller 0 false 100))
         Sample.client Sample.failedReceive) = -104 /\
  snd (processClient Sample.sizeof_command Sample.sizeof_connectInfo
       Sample.isSupportedFamily Sample.PERMISSION_NONE Sample.PERMISSION_SYSTEM
         (Sample.kernel 2 Sample.fresh)
         (Sample.server (Sample.controller 0 false 100))
         Sample.client Sample.failedReceive) = initialState.
Proof.
  destruct (unframed_message_is_dropped Sample.sizeof_command Sample.sizeof_connectInfo
       Sample.isSupportedFamily Sample.PERMISSION_NONE Sample.PERMISSION_SYSTEM
              (Sample.kernel 2 Sample.fresh)
              (Sample.server (Sample.controller 0 false 100))
              Sample.client Sample.failedReceive)
    as (Hst & Herr & _).
  - intros [Hpos _]. vm_compute in Hpos. discriminate Hpos.
  - split; [apply Herr; reflexivity | exact Hst].
Defined.

(** ON_SENDTO without redirection is a bare command of 16 bytes. *)
Lemma send_commands_return_at_once_witness :
  processClient Sample.sizeof_command Sample.sizeof_connectInfo
       Sample.isSupportedFamily Sample.PERMISSION_NONE Sample.PERMISSION_SYSTEM
    (Sample.kernel 2 Sample.fresh)
    (Sample.server (Sample.controller 0 false 100))
    Sample.client (Sample.request ON_SENDTO 0 0 16 [5])
  = (0, mkState 5 [Getsockopt 5 SO_DOMAIN; Getsockopt 5 SO_MARK]).
Proof.
  apply (send_commands_return_at_once Sample.sizeof_command Sample.sizeof_connectInfo
       Sample.isSupportedFamily Sample.PERMISSION_NONE Sample.PERMISSION_SYSTEM
           (Sample.kernel 2 Sample.fresh)
           (Sample.server (Sample.controller 0 false 100))
           Sample.client (Sample.request ON_SENDTO 0 0 16 [5])
           5 2 Sample.fresh).
  - split; vm_compute; reflexivity.
  - left. reflexivity.
  - unfold gated; cbn; repeat split; (reflexivity || lia).
Defined.

(** TAG_SOCKET with uid 0xFFFFFFFF tags as the caller, uid 10001. *)
Lemma tag_socket_forwards_witness :
  processClient Sample.sizeof_command Sample.sizeof_connectInfo
       Sample.isSupportedFamily Sample.PERMISSION_NONE Sample.PERMISSION_SYSTEM
    (Sample.kernel 2 Sample.fresh)
    (Sample.server (Sample.controller 0 false 100))
    Sample.client (Sample.request TAG_SOCKET 0 4294967295 16 [5])
  = (0, mkState 5 [Getsockopt 5 SO_DOMAIN; Getsockopt 5 SO_MARK;
                   TagSocket 5 0 10001 10001]).
Proof.
  apply (tag_socket_forwards Sample.sizeof_command Sample.sizeof_connectInfo
       Sample.isSupportedFamily Sample.PERMISSION_NONE Sample.PERMISSION_SYSTEM
           (Sample.kernel 2 Sample.fresh)
           (Sample.server (Sample.controller 0 false 100))
           Sample.client (Sample.request TAG_SOCKET 0 4294967295 16 [5])
           5 2 Sample.fresh).
  - split; vm_compute; reflexivity.
  - reflexivity.
  - unfold gated; cbn; repeat split; (reflexivity || lia).
  - cbn. lia.
Defined.

Lemma untag_socket_forwards_witness :
  processClient Sample.sizeof_command Sample.sizeof_connectInfo
       Sample.isSupportedFamily Sample.PERMISSION_NONE Sample.PERMISSION_SYSTEM
    (Sample.kernel 2 Sample.fresh)
    (Sample.server (Sample.controller 0 false 100))
    Sample.client (Sample.request UNTAG_SOCKET 0 0 16 [5])
  = (0, mkState 5 [Getsockopt 5 SO_DOMAIN; Getsockopt 5 SO_MARK;
                   UntagSocket 5]).
Proof.
  apply (untag_socket_forwards Sample.sizeof_command Sample.sizeof_connectInfo
       Sample.isSupportedFamily Sample.PERMISSION_NONE Sample.PERMISSION_SYSTEM
           (Sample.kernel 2 Sample.fresh)
           (Sample.server (Sample.controller 0 false 100))
           Sample.client (Sample.request UNTAG_SOCKET 0 0 16 [5])
           5 2 Sample.fresh).
  - split; vm_compute; reflexivity.
  - reflexivity.
  - unfold gated; cbn; repeat split; (reflexivity || lia).
Defined.

Lemma unknown_command_is_protocol_error_witness :
  processClient Sample.sizeof_command Sample.sizeof_connectInfo
       Sample.isSupportedFamily Sample.PERMISSION_NONE Sample.PERMISSION_SYSTEM
    (Sample.kernel 2 Sample.fresh)
    (Sample.server (Sample.controller 0 false 100))
    Sample.client (Sample.request (UNKNOWN 99) 0 0 16 [5])
  = (- EPROTO, mkState 5 [Getsockopt 5 SO_DOMAIN; Getsockopt 5 SO_MARK]).
Proof.
  apply (unknown_command_is_protocol_error Sample.sizeof_command Sample.sizeof_connectInfo
       Sample.isSupportedFamily Sample.PERMISSION_NONE Sample.PERMISSION_SYSTEM
           (Sample.kernel 2 Sample.fresh)
           (Sample.server (Sample.controller 0 false 100))
           Sample.client (Sample.request (UNKNOWN 99) 0 0 16 [5])
           5 2 Sample.fresh 99).
  - split; vm_compute; reflexivity.
  - reflexivity.
  - unfold gated; cbn; repeat split; (reflexivity || lia).
Defined.

(** A caller with PERMISSION_NETWORK that can protect selects network 100
    on a fresh socket. *)
Lemma select_network_selects_witness :
  trace (snd (processClient Sample.sizeof_command Sample.sizeof_connectInfo
       Sample.isSupportedFamily Sample.PERMISSION_NONE Sample.PERMISSION_SYSTEM
    (Sample.kernel 2 Sample.fresh)
    (Sample.server (Sample.controller 1 true 100))
    Sample.client (Sample.request SELECT_NETWORK 100 0 16 [5])))
  = [Getsockopt 5 SO_DOMAIN; Getsockopt 5 SO_MARK;
     CheckUserNetworkAccess 10001 100;
     SetsockoptMark 5 (Fwmark.mk 100 true true 1 0)].
Proof.
  destruct (select_network_selects Sample.sizeof_command Sample.sizeof_connectInfo
       Sample.isSupportedFamily Sample.PERMISSION_NONE Sample.PERMISSION_SYSTEM
              (Sample.kernel 2 Sample.fresh)
              (Sample.server (Sample.controller 1 true 100))
              Sample.client (Sample.request SELECT_NETWORK 100 0 16 [5])
              5 2 Sample.fresh)
    as (Htr & _).
  - split; vm_compute; reflexivity.
  - reflexivity.
  - discriminate.
  - unfold gated; cbn; repeat split; (reflexivity || lia).
  - reflexivity.
  - exact Htr.
Defined.

(** A caller with PERMISSION_SYSTEM puts a fresh socket on the network of
    user 1000. *)
Lemma select_for_user_transition_witness :
  trace (snd (processClient Sample.sizeof_command Sample.sizeof_connectInfo
       Sample.isSupportedFamily Sample.PERMISSION_NONE Sample.PERMISSION_SYSTEM
    (Sample.kernel 2 Sample.fresh)
    (Sample.server (Sample.controller 3 false 100))
    Sample.client (Sample.request SELECT_FOR_USER 0 1000 16 [5])))
  = [Getsockopt 5 SO_DOMAIN; Getsockopt 5 SO_MARK;
     SetsockoptMark 5 (Fwmark.mk 100 false true 3 0)].
Proof.
  destruct (select_for_user_transition Sample.sizeof_command Sample.sizeof_connectInfo
       Sample.isSupportedFamily Sample.PERMISSION_NONE Sample.PERMISSION_SYSTEM
              (Sample.kernel 2 Sample.fresh)
              (Sample.server (Sample.controller 3 false 100))
              Sample.client (Sample.request SELECT_FOR_USER 0 1000 16 [5])
              5 2 Sample.fresh)
    as (_ & H).
  - split; vm_compute; reflexivity.
  - reflexivity.
  - unfold gated; cbn; repeat split; (reflexivity || lia).
  - apply H. reflexivity.
Defined.

Lemma on_accept_adds_permission_witness :
  trace (snd (processClient Sample.sizeof_command Sample.sizeof_connectInfo
       Sample.isSupportedFamily Sample.PERMISSION_NONE Sample.PERMISSION_SYSTEM
    (Sample.kernel 2 (Fwmark.mk 100 false false 1 0))
    (Sample.server (Sample.controller 3 false 100))
    Sample.client (Sample.request ON_ACCEPT 0 0 16 [5])))
  = [Getsockopt 5 SO_DOMAIN; Getsockopt 5 SO_MARK;
     SetsockoptMark 5 (Fwmark.mk 100 false false 3 0)].
Proof.
  apply (on_accept_adds_permission Sample.sizeof_command Sample.sizeof_connectInfo
       Sample.isSupportedFamily Sample.PERMISSION_NONE Sample.PERMISSION_SYSTEM
           (Sample.kernel 2 (Fwmark.mk 100 false false 1 0))
           (Sample.server (Sample.controller 3 false 100))
           Sample.client (Sample.request ON_ACCEPT 0 0 16 [5])
           5 2 (Fwmark.mk 100 false false 1 0)).
  - split; vm_compute; reflexivity.
  - reflexivity.
  - unfold gated; cbn; repeat split; (reflexivity || lia).
Defined.

(** A TCP connect on network 100 is reported when a listener is there. *)
Lemma on_connect_complete_reports_witness :
  trace (snd (processClient Sample.sizeof_command Sample.sizeof_connectInfo
       Sample.isSupportedFamily Sample.PERMISSION_NONE Sample.PERMISSION_SYSTEM
    (Sample.kernel 2 (Fwmark.mk 100 false false 0 0))
    (Sample.listeningServer (Sample.controller 0 false 100))
    Sample.client
    (Sample.connectRequest ON_CONNECT_COMPLETE Sample.noConnectInfo [5])))
  = [Getsockopt 5 SO_DOMAIN; Getsockopt 5 SO_MARK; Getsockopt 5 SO_PROTOCOL;
     OnConnectEvent 100 0 0 EmptyString 0 10001;
     SetsockoptMark 5 (Fwmark.mk 100 false false 0 0)].
Proof.
  apply (on_connect_complete_reports Sample.sizeof_command Sample.sizeof_connectInfo
       Sample.isSupportedFamily Sample.PERMISSION_NONE Sample.PERMISSION_SYSTEM
           (Sample.kernel 2 (Fwmark.mk 100 false false 0 0))
           (Sample.listeningServer (Sample.controller 0 false 100))
           Sample.client
           (Sample.connectRequest ON_CONNECT_COMPLETE Sample.noConnectInfo [5])
           5 2 (Fwmark.mk 100 false false 0 0)).
  - split; vm_compute; reflexivity.
  - reflexivity.
  - unfold gated; cbn; repeat split; (reflexivity || lia).
Defined.

(** ON_ACCEPT on a marker with other bits set keeps them. *)
Lemma write_keeps_other_bits_witness :
  Fwmark.otherBits (Fwmark.mk 100 false false 3 5) = 5.
Proof.
  apply (write_keeps_other_bits Sample.sizeof_command Sample.sizeof_connectInfo
       Sample.isSupportedFamily Sample.PERMISSION_NONE Sample.PERMISSION_SYSTEM
           (Sample.kernel 2 (Fwmark.mk 100 false false 1 5))
           (Sample.server (Sample.controller 3 false 100))
           Sample.client (Sample.request ON_ACCEPT 0 0 16 [5])
           5 2 (Fwmark.mk 100 false false 1 5) (Fwmark.mk 100 false false 3 5)).
  - split; vm_compute; reflexivity.
  - unfold gated; cbn; repeat split; (reflexivity || lia).
  - vm_compute. left. reflexivity.
Defined.

(** SELECT_FOR_USER on an explicitly selected, protected socket. *)
Lemma only_select_network_unselects_witness :
  Fwmark.explicitlySelected (Fwmark.mk 100 true true 3 0) = true /\
  (true = true -> Fwmark.protectedFromVpn (Fwmark.mk 100 true true 3 0) = true).
Proof.
  apply (only_select_network_unselects Sample.sizeof_command Sample.sizeof_connectInfo
       Sample.isSupportedFamily Sample.PERMISSION_NONE Sample.PERMISSION_SYSTEM
           (Sample.kernel 2 (Fwmark.mk 101 true true 0 0))
           (Sample.server (Sample.controller 3 false 100))
           Sample.client (Sample.request SELECT_FOR_USER 0 1000 16 [5])
           5 2 (Fwmark.mk 101 true true 0 0) (Fwmark.mk 100 true true 3 0)).
  - split; vm_compute; reflexivity.
  - unfold gated; cbn; repeat split; (reflexivity || lia).
  - vm_compute. left. reflexivity.
  - discriminate.
Defined.

(** On a kernel that refuses the write, ON_ACCEPT returns -EPERM. *)
Lemma status_of_a_write_witness :
  fst (processClient Sample.sizeof_command Sample.sizeof_connectInfo
       Sample.isSupportedFamily Sample.PERMISSION_NONE Sample.PERMISSION_SYSTEM
         (Sample.readOnlyKernel 2 Sample.fresh)
         (Sample.server (Sample.controller 0 false 100))
         Sample.client (Sample.request ON_ACCEPT 0 0 16 [5]))
  = - EPERM.
Proof.
  apply (status_of_a_write Sample.sizeof_command Sample.sizeof_connectInfo
       Sample.isSupportedFamily Sample.PERMISSION_NONE Sample.PERMISSION_SYSTEM
           (Sample.readOnlyKernel 2 Sample.fresh)
           (Sample.server (Sample.controller 0 false 100))
           Sample.client (Sample.request ON_ACCEPT 0 0 16 [5])
           5 2 Sample.fresh Sample.fresh).
  - split; vm_compute; reflexivity.
  - unfold gated; cbn; repeat split; (reflexivity || lia).
  - vm_compute. left. reflexivity.
Defined.

(** The client's own socket is 7; the calls are on the descriptor 5. *)
Lemma calls_are_on_the_received_descriptor_witness :
  received_fds (Sample.request ON_ACCEPT 0 0 16 [5]) = [5] /\ 0 <= 5 /\
  (socketFd (snd (processClient Sample.sizeof_command Sample.sizeof_connectInfo
       Sample.isSupportedFamily Sample.PERMISSION_NONE Sample.PERMISSION_SYSTEM
         (Sample.kernel 2 Sample.fresh)
         (Sample.server (Sample.controller 0 false 100))
         Sample.client (Sample.request ON_ACCEPT 0 0 16 [5]))) = 5 /\
   SetsockoptMark 5 Sample.fresh <> Close 5 \/
   socketFd (snd (processClient Sample.sizeof_command Sample.sizeof_connectInfo
       Sample.isSupportedFamily Sample.PERMISSION_NONE Sample.PERMISSION_SYSTEM
         (Sample.kernel 2 Sample.fresh)
         (Sample.server (Sample.controller 0 false 100))
         Sample.client (Sample.request ON_ACCEPT 0 0 16 [5]))) = -1 /\
   SetsockoptMark 5 Sample.fresh = Close 5).
Proof.
  apply (calls_are_on_the_received_descriptor Sample.sizeof_command Sample.sizeof_connectInfo
       Sample.isSupportedFamily Sample.PERMISSION_NONE Sample.PERMISSION_SYSTEM
           (Sample.kernel 2 Sample.fresh)
           (Sample.server (Sample.controller 0 false 100))
           Sample.client (Sample.request ON_ACCEPT 0 0 16 [5])
           (SetsockoptMark 5 Sample.fresh) 5).
  - vm_compute. right. right. left. reflexivity.
  - reflexivity.
Defined.

(** SELECT_NETWORK for network 101 in a command that names uid 42: the
    check is for the caller, uid 10001. *)
Lemma access_check_subject_witness :
  101 = netId (command (Sample.request SELECT_NETWORK 101 42 16 [5])) /\
  ((cmdId (command (Sample.request SELECT_NETWORK 101 42 16 [5]))
    = QUERY_USER_ACCESS /\
    10001 = uid (command (Sample.request SELECT_NETWORK 101 42 16 [5]))) \/
   (cmdId (command (Sample.request SELECT_NETWORK 101 42 16 [5]))
    = SELECT_NETWORK /\
    10001 = getUid Sample.client /\ 101 <> NETID_UNSET)).
Proof.
  apply (access_check_subject Sample.sizeof_command Sample.sizeof_connectInfo
       Sample.isSupportedFamily Sample.PERMISSION_NONE Sample.PERMISSION_SYSTEM
           (Sample.kernel 2 Sample.fresh)
           (Sample.server (Sample.controller 0 false 100))
           Sample.client (Sample.request SELECT_NETWORK 101 42 16 [5])
           10001 101).
  vm_compute. right. right. left. reflexivity.
Defined.

Lemma tagging_writes_no_marker_witness :
  markWrites (trace (snd (processClient Sample.sizeof_command Sample.sizeof_connectInfo
       Sample.isSupportedFamily Sample.PERMISSION_NONE Sample.PERMISSION_SYSTEM
         (Sample.kernel 2 Sample.fresh)
         (Sample.server (Sample.controller 0 false 100))
         Sample.client (Sample.request UNTAG_SOCKET 0 0 16 [5]))))
  = [].
Proof.
  apply (tagging_writes_no_marker Sample.sizeof_command Sample.sizeof_connectInfo
       Sample.isSupportedFamily Sample.PERMISSION_NONE Sample.PERMISSION_SYSTEM
           (Sample.kernel 2 Sample.fresh)
           (Sample.server (Sample.controller 0 false 100))
           Sample.client (Sample.request UNTAG_SOCKET 0 0 16 [5])
           (UntagSocket 5)).
  - vm_compute. right. right. left. reflexivity.
  - reflexivity.
Defined.

Lemma only_connect_complete_reports_witness :
  cmdId (command
           (Sample.connectRequest ON_CONNECT_COMPLETE Sample.noConnectInfo [5]))
  = ON_CONNECT_COMPLETE /\
  0 = FwmarkConnectInfo.error Sample.noConnectInfo /\
  0 = FwmarkConnectInfo.latencyMs Sample.noConnectInfo /\
  10001 = getUid Sample.client.
Proof.
  apply (only_connect_complete_reports Sample.sizeof_command Sample.sizeof_connectInfo
       Sample.isSupportedFamily Sample.PERMISSION_NONE Sample.PERMISSION_SYSTEM
           (Sample.kernel 2 (Fwmark.mk 100 false false 0 0))
           (Sample.listeningServer (Sample.controller 0 false 100))
           Sample.client
           (Sample.connectRequest ON_CONNECT_COMPLETE Sample.noConnectInfo [5])
           100 0 0 EmptyString 0 10001).
  vm_compute. right. right. right. left. reflexivity.
Defined.


(** The two ways a descriptor gets closed: a denied SELECT_NETWORK took the
    descriptor, and [onDataAvailable] closes it; a query did not, and the
    destructor closes it. *)
Lemma onDataAvailable_released_example :
  snd (onDataAvailable Sample.sizeof_command Sample.sizeof_connectInfo
       Sample.isSupportedFamily Sample.PERMISSION_NONE Sample.PERMISSION_SYSTEM
         (Sample.kernel 2 Sample.fresh)
         (Sample.server (Sample.controller 0 false 100))
         Sample.client (Sample.request SELECT_NETWORK 101 0 16 [5]))
  = [Getsockopt 5 SO_DOMAIN; Getsockopt 5 SO_MARK;
     CheckUserNetworkAccess 10001 101; Close 5; SendData 7 (-13)].
Proof. reflexivity. Qed.

Lemma onDataAvailable_unreleased_example :
  snd (onDataAvailable Sample.sizeof_command Sample.sizeof_connectInfo
       Sample.isSupportedFamily Sample.PERMISSION_NONE Sample.PERMISSION_SYSTEM
         (Sample.kernel 2 Sample.fresh)
         (Sample.server (Sample.controller 3 false 100))
         Sample.client (Sample.request QUERY_USER_ACCESS 100 1000 16 [5]))
  = [CheckUserNetworkAccess 1000 100; Close 5; SendData 7 0].
Proof. reflexivity. Qed.

(** ON_CONNECT on a fresh socket writes network 100; sent again on the
    socket so marked, it writes the same. *)
Lemma repeated_request_writes_same_marker_witness :
  markWrites (trace (snd (processClient Sample.sizeof_command Sample.sizeof_connectInfo
       Sample.isSupportedFamily Sample.PERMISSION_NONE Sample.PERMISSION_SYSTEM
         (Sample.kernel 2 (Fwmark.mk 100 false false 0 0))
         (Sample.server (Sample.controller 0 false 100))
         Sample.client
         (Sample.connectRequest ON_CONNECT Sample.noConnectInfo [5]))))
  = [Fwmark.mk 100 false false 0 0].
Proof.
  apply (repeated_request_writes_same_marker Sample.sizeof_command Sample.sizeof_connectInfo
       Sample.isSupportedFamily Sample.PERMISSION_NONE Sample.PERMISSION_SYSTEM
           (Sample.server (Sample.controller 0 false 100))
           (Sample.kernel 2 Sample.fresh)
           (Sample.kernel 2 (Fwmark.mk 100 false false 0 0))
           Sample.client
           (Sample.connectRequest ON_CONNECT Sample.noConnectInfo [5])
           5 2 Sample.fresh (Fwmark.mk 100 false false 0 0)).
  - split; vm_compute; reflexivity.
  - unfold gated; cbn; repeat split; (reflexivity || lia).
  - vm_compute. left. reflexivity.
  - unfold gated; cbn; repeat split; (reflexivity || lia).
Defined.

(** A socket on the VPN 200 is protected and then connected: it ends on the
    default network 100. *)
Lemma protect_then_connect_uses_default_witness :
  exists w2,
    markWrites (trace (snd (processClient Sample.sizeof_command Sample.sizeof_connectInfo
       Sample.isSupportedFamily Sample.PERMISSION_NONE Sample.PERMISSION_SYSTEM
         (Sample.kernel 2 (Fwmark.mk 100 false true 0 0))
         (Sample.server (Sample.controller 0 true 200))
         Sample.client
         (Sample.connectRequest ON_CONNECT Sample.noConnectInfo [5]))))
    = [w2] /\
    Fwmark.netId w2 = 100 /\
    Fwmark.protectedFromVpn w2 = true /\
    Fwmark.explicitlySelected w2 = false.
Proof.
  apply (protect_then_connect_uses_default Sample.sizeof_command Sample.sizeof_connectInfo
       Sample.isSupportedFamily Sample.PERMISSION_NONE Sample.PERMISSION_SYSTEM
           (Sample.server (Sample.controller 0 true 200))
           (Sample.kernel 2 (Fwmark.mk 200 false false 0 0))
           (Sample.kernel 2 (Fwmark.mk 100 false true 0 0))
           Sample.client Sample.client
           (Sample.request PROTECT_FROM_VPN 0 0 16 [5])
           (Sample.connectRequest ON_CONNECT Sample.noConnectInfo [5])
           5 5 2 2 (Fwmark.mk 200 false false 0 0)
           (Fwmark.mk 100 false true 0 0)).
  - split; vm_compute; reflexivity.
  - reflexivity.
  - unfold gated; cbn; repeat split; (reflexivity || lia).
  - reflexivity.
  - vm_compute. left. reflexivity.
  - split; vm_compute; reflexivity.
  - reflexivity.
  - unfold gated; cbn; repeat split; (reflexivity || lia).
  - intros (E & _). discriminate E.
  - unfold Fwmark.validNetId. cbn. lia.
  - reflexivity.
Defined.

(** Network 100 is selected; the connect that follows, by a caller whose
    network for connect is the VPN 200, stays on 100. *)
Lemma select_then_connect_keeps_network_witness :
  exists w2,
    markWrites (trace (snd (processClient Sample.sizeof_command Sample.sizeof_connectInfo
       Sample.isSupportedFamily Sample.PERMISSION_NONE Sample.PERMISSION_SYSTEM
         (Sample.kernel 2 (Fwmark.mk 100 true false 0 0))
         (Sample.server (Sample.controller 0 false 200))
         Sample.client
         (Sample.connectRequest ON_CONNECT Sample.noConnectInfo [5]))))
    = [w2] /\
    Fwmark.netId w2 = 100 /\
    Fwmark.explicitlySelected w2 = true.
Proof.
  apply (select_then_connect_keeps_network Sample.sizeof_command Sample.sizeof_connectInfo
       Sample.isSupportedFamily Sample.PERMISSION_NONE Sample.PERMISSION_SYSTEM
           (Sample.server (Sample.controller 0 false 200))
           (Sample.kernel 2 Sample.fresh)
           (Sample.kernel 2 (Fwmark.mk 100 true false 0 0))
           Sample.client Sample.client
           (Sample.request SELECT_NETWORK 100 0 16 [5])
           (Sample.connectRequest ON_CONNECT Sample.noConnectInfo [5])
           5 5 2 2 Sample.fresh (Fwmark.mk 100 true false 0 0)).
  - split; vm_compute; reflexivity.
  - reflexivity.
  - discriminate.
  - unfold Fwmark.validNetId. cbn. lia.
  - unfold gated; cbn; repeat split; (reflexivity || lia).
  - vm_compute. left. reflexivity.
  - split; vm_compute; reflexivity.
  - reflexivity.
  - unfold gated; cbn; repeat split; (reflexivity || lia).
Defined.

(** The selection of network 101 is reset; the connect that follows goes
    over the caller's network for connect, 100. *)
Lemma reset_then_connect_chooses_afresh_witness :
  exists w2,
    markWrites (trace (snd (processClient Sample.sizeof_command Sample.sizeof_connectInfo
       Sample.isSupportedFamily Sample.PERMISSION_NONE Sample.PERMISSION_SYSTEM
         (Sample.kernel 2 Sample.fresh)
         (Sample.server (Sample.controller 0 false 100))
         Sample.client
         (Sample.connectRequest ON_CONNECT Sample.noConnectInfo [5]))))
    = [w2] /\
    Fwmark.netId w2 = 100.
Proof.
  apply (reset_then_connect_chooses_afresh Sample.sizeof_command Sample.sizeof_connectInfo
       Sample.isSupportedFamily Sample.PERMISSION_NONE Sample.PERMISSION_SYSTEM
           (Sample.server (Sample.controller 0 false 100))
           (Sample.kernel 2 (Fwmark.mk 101 true true 1 0))
           (Sample.kernel 2 Sample.fresh)
           Sample.client Sample.client
           (Sample.request SELECT_NETWORK NETID_UNSET 0 16 [5])
           (Sample.connectRequest ON_CONNECT Sample.noConnectInfo [5])
           5 5 2 2 (Fwmark.mk 101 true true 1 0) Sample.fresh).
  - split; vm_compute; reflexivity.
  - reflexivity.
  - reflexivity.
  - unfold gated; cbn; repeat split; (reflexivity || lia).
  - vm_compute. left. reflexivity.
  - split; vm_compute; reflexivity.
  - reflexivity.
  - unfold gated; cbn; repeat split; (reflexivity || lia).
  - intros (E & _). discriminate E.
  - unfold Fwmark.validNetId. cbn. lia.
Defined.

(** The system server, calling from uid 1000 (AID_SYSTEM in Android), is
    recognised, and its context is freed. *)
Lemma isSystemServer_spec_witness :
  isSystemServer 1000 Sample.peerIsSystemServer (mkSocketClient 1000 7)
  = (true, [Getpeercon 7; Freecon SYSTEM_SERVER_CONTEXT]) /\
  fst (isSystemServer 1000 Sample.peerIsSystemServer (mkSocketClient 1000 7))
  = true.
Proof.
  split; [reflexivity|].
  apply (isSystemServer_spec 1000 Sample.peerIsSystemServer
           (mkSocketClient 1000 7)).
  split; reflexivity.
Defined.

(** A socket on network 100 is protected: it stays on 100. *)
Lemma protect_keeps_physical_network_witness :
  trace (snd (processClient Sample.sizeof_command Sample.sizeof_connectInfo
       Sample.isSupportedFamily Sample.PERMISSION_NONE Sample.PERMISSION_SYSTEM
    (Sample.kernel 2 (Fwmark.mk 100 false false 0 0))
    (Sample.server (Sample.controller 1 true 100))
    Sample.client (Sample.request PROTECT_FROM_VPN 0 0 16 [5])))
  = [Getsockopt 5 SO_DOMAIN; Getsockopt 5 SO_MARK;
     SetsockoptMark 5 (Fwmark.mk 100 false true 1 0)].
Proof.
  apply (protect_keeps_physical_network Sample.sizeof_command Sample.sizeof_connectInfo
       Sample.isSupportedFamily Sample.PERMISSION_NONE Sample.PERMISSION_SYSTEM
           (Sample.kernel 2 (Fwmark.mk 100 false false 0 0))
           (Sample.server (Sample.controller 1 true 100))
           Sample.client (Sample.request PROTECT_FROM_VPN 0 0 16 [5])
           5 2 (Fwmark.mk 100 false false 0 0)).
  - split; vm_compute; reflexivity.
  - reflexivity.
  - unfold gated; cbn; repeat split; (reflexivity || lia).
  - reflexivity.
  - reflexivity.
Defined.
